(** * Tree attestation and NFT minting workflow

    A shallow embedding of the orchestration script [index.js], of the
    pinning module [uploadToIPFS.js] and of the Solidity contract
    [ResearchNFT], with the properties of the workflow and of the
    per-class metadata pointer proved over it.

    Conventions.
    - A JavaScript string is a [string] holding the UTF-8 bytes of a
      well-formed text; [process.env.X] and every other value that is
      "a string or undefined" is an [option string].
    - The script's effects are made explicit: a computation takes the
      file system and returns an outcome (a thrown error or a value), the
      file system it leaves and the list of events it performed, in order.
    - The collaborators whose code is outside the sources ([createAttestation.js],
      [mintNFTree.js], the Pinata SDK, the failure of a file write) are
      parameters of a run, gathered in [Services].
    - Solidity [uint256] and [address] values are [N]; a [mapping] is a
      total function with the zero value as default. *)

From Stdlib Require Import String Ascii List NArith Bool Lia.
From stdpp Require Import gmap strings.
Import ListNotations.

Set Warnings "-register-all".
Local Open Scope string_scope.
Local Open Scope list_scope.

(** ** JavaScript values used by the script *)

Module Js.

(** An [Error] object; only its message is observed. *)
Record JsError := mkError { message : string }.

(** A transaction receipt returned by the minting module (opaque). *)
Inductive Receipt := mkReceipt (summary : string).

(** [!v] for a value that is a string or [undefined]. *)
Definition falsy (v : option string) : bool :=
  match v with
  | None => true
  | Some s => String.eqb s EmptyString
  end.

(** [a + b] where [a] is a string or [undefined] and [b] a string:
    [ToString(undefined)] is the text [undefined]. *)
Definition plus (a : option string) (b : string) : string :=
  match a with
  | None => "undefined" +:+ b
  | Some s => s +:+ b
  end.

(** *** JSON.stringify *)

Inductive JsValue :=
| JUndefined
| JString (s : string)
| JObject (props : list (string * JsValue)).

Definition DQUOTE : string := String (ascii_of_nat 34) EmptyString.
Definition BACKSLASH : string := String (ascii_of_nat 92) EmptyString.
Definition LF : string := String (ascii_of_nat 10) EmptyString.

Definition hexDigit (n : nat) : string :=
  match n with
  | 0 => "0" | 1 => "1" | 2 => "2" | 3 => "3" | 4 => "4" | 5 => "5"
  | 6 => "6" | 7 => "7" | 8 => "8" | 9 => "9" | 10 => "a" | 11 => "b"
  | 12 => "c" | 13 => "d" | 14 => "e" | _ => "f"
  end.

(** The escape of one character in [QuoteJSONString]: the two-character
    escapes, [\u00xx] for the other control characters, and every other
    character (bytes of multi-byte UTF-8 sequences included) as it is. *)
Definition quoteChar (c : ascii) : string :=
  let n := nat_of_ascii c in
  match n with
  | 8 => BACKSLASH +:+ "b"
  | 9 => BACKSLASH +:+ "t"
  | 10 => BACKSLASH +:+ "n"
  | 12 => BACKSLASH +:+ "f"
  | 13 => BACKSLASH +:+ "r"
  | 34 => BACKSLASH +:+ DQUOTE
  | 92 => BACKSLASH +:+ BACKSLASH
  | _ => if Nat.ltb n 32
         then BACKSLASH +:+ "u00" +:+ hexDigit (Nat.div n 16) +:+ hexDigit (Nat.modulo n 16)
         else String c EmptyString
  end.

Fixpoint quoteBody (s : string) : string :=
  match s with
  | EmptyString => EmptyString
  | String c r => quoteChar c +:+ quoteBody r
  end.

Definition QuoteJSONString (s : string) : string :=
  DQUOTE +:+ quoteBody s +:+ DQUOTE.

Fixpoint join (sep : string) (l : list string) : string :=
  match l with
  | [] => EmptyString
  | [x] => x
  | x :: r => x +:+ sep +:+ join sep r
  end.

(** [SerializeJSONProperty] for a non-empty [gap]: [None] is [undefined]
    (a property whose value is [undefined] is left out of its object). *)
Fixpoint SerializeJSONProperty (gap indent : string) (v : JsValue) : option string :=
  match v with
  | JUndefined => None
  | JString s => Some (QuoteJSONString s)
  | JObject props =>
      let stepback := indent in
      let indent' := indent +:+ gap in
      let partial :=
        (fix members (ps : list (string * JsValue)) : list string :=
           match ps with
           | [] => []
           | (k, x) :: r =>
               match SerializeJSONProperty gap indent' x with
               | None => members r
               | Some str => (QuoteJSONString k +:+ ": " +:+ str) :: members r
               end
           end) props in
      Some match partial with
           | [] => "{}"
           | _ => "{" +:+ LF +:+ indent' +:+ join ("," +:+ LF +:+ indent') partial
                      +:+ LF +:+ stepback +:+ "}"
           end
  end.

(** [JSON.stringify(value, null, 2)]. *)
Definition JSON_stringify_2 (value : JsValue) : option string :=
  SerializeJSONProperty "  " EmptyString value.

End Js.

Import Js.

(** ** Effects: file system, events, thrown errors *)

Module Eff.

(** A stream opened by [fs.createReadStream]: the bytes it will deliver,
    or [None] when the file cannot be opened (the stream then fails when
    it is consumed, not when it is created). *)
Definition ReadStream := option string.

(** What a run does, in order: lines on the console, calls of the
    collaborators and of [uploadToIPFS], writes of files, reads of the
    environment inside a function. *)
Inductive Event :=
| ConsoleLog (args : list Arg)
| ConsoleError (args : list Arg)
| CreateAttestationCall
| WriteFileSync (path data : string)
| UploadToIPFSCall (filePath : string)
| PinFileToIPFS (stream : ReadStream) (name : string) (cidVersion : N)
| EnvRead (name : string)
| MintNFTreeCall (to : option string) (tokenId amount : N) (tokenURI : string)
with Arg :=
| AStr (s : string)
| AErr (e : JsError)
| AReceipt (r : Receipt).

(** The result of a computation: what it returned or threw, the files it
    leaves and the events it performed. *)
Record Res (A : Type) := mkRes {
  outcome : JsError + A;
  files : gmap string string;
  events : list Event
}.
Arguments mkRes {A} _ _ _.
Arguments outcome {A} _.
Arguments files {A} _.
Arguments events {A} _.

Definition M (A : Type) : Type := gmap string string -> Res A.

Definition ret {A} (a : A) : M A := fun fs => mkRes (inr a) fs [].

Definition throw {A} (e : JsError) : M A := fun fs => mkRes (inl e) fs [].

Definition bind {A B} (m : M A) (k : A -> M B) : M B := fun fs =>
  match m fs with
  | mkRes (inl e) fs1 evs1 => mkRes (inl e) fs1 evs1
  | mkRes (inr a) fs1 evs1 =>
      match k a fs1 with
      | mkRes o fs2 evs2 => mkRes o fs2 (evs1 ++ evs2)
      end
  end.

(** [try { body } catch (error) { handler(error) }]. *)
Definition try_catch {A} (body : M A) (handler : JsError -> M A) : M A := fun fs =>
  match body fs with
  | mkRes (inl e) fs1 evs1 =>
      match handler e fs1 with
      | mkRes o fs2 evs2 => mkRes o fs2 (evs1 ++ evs2)
      end
  | mkRes (inr a) fs1 evs1 => mkRes (inr a) fs1 evs1
  end.

Definition emit (e : Event) : M unit := fun fs => mkRes (inr tt) fs [e].

Definition console_log (args : list Arg) : M unit := emit (ConsoleLog args).
Definition console_error (args : list Arg) : M unit := emit (ConsoleError args).

(** [fs.existsSync(path)]. *)
Definition existsSync (path : string) : M bool := fun fs =>
  mkRes (inr (bool_decide (is_Some (fs !! path)))) fs [].

(** [fs.createReadStream(path)]. *)
Definition createReadStream (path : string) : M ReadStream := fun fs =>
  mkRes (inr (fs !! path)) fs [].

End Eff.

Import Eff.

Declare Scope js_scope.
Delimit Scope js_scope with js.
Notation "x <- m ;; k" := (bind m (fun x => k))
  (at level 100, m at next level, k at level 200, right associativity) : js_scope.
Notation "m ;; k" := (bind m (fun _ => k))
  (at level 100, k at level 200, right associativity) : js_scope.
Notation "'when' c 'throw_new_Error' msg" :=
  (if c then throw (mkError msg) else ret tt)
  (at level 60, c at level 9, msg at level 9) : js_scope.
Local Open Scope js_scope.

(** ** The host and the external collaborators *)

(** The Node.js process: its environment (after [dotenv] has loaded the
    [.env] file), the directory of the scripts and the two [path]
    functions the scripts use. *)
Record Host := mkHost {
  env : gmap string string;
  dirname : string;
  path_join : string -> string -> string;
  path_basename : string -> string
}.

(** The collaborators whose code is outside the sources, as the results
    they give during one run:
    - [attestation]: what [createAttestation()] resolves or rejects with
      (module [createAttestation.js]);
    - [write_fault]: the error [fs.writeFileSync] throws, if it throws;
    - [pinning]: what [pinata.pinFileToIPFS(stream, options)] resolves
      with (the [IpfsHash] of its result) or rejects with;
    - [minting]: what [mintNFTree(to, tokenId, amount, tokenURI)] resolves
      or rejects with (module [mintNFTree.js]). *)
Record Services := mkServices {
  attestation : JsError + string;
  write_fault : option JsError;
  pinning : ReadStream -> string -> N -> JsError + string;
  minting : option string -> N -> N -> string -> JsError + Receipt
}.

Definition lift {A} (r : JsError + A) : M A := fun fs => mkRes r fs [].

(** [await createAttestation()]. *)
Definition createAttestation (sv : Services) : M string :=
  emit CreateAttestationCall ;; lift (attestation sv).

(** [fs.writeFileSync(path, data)]: replaces the whole content of the
    file, or throws and leaves the file as it was. *)
Definition writeFileSync (sv : Services) (path data : string) : M unit := fun fs =>
  match write_fault sv with
  | Some e => mkRes (inl e) fs [WriteFileSync path data]
  | None => mkRes (inr tt) (<[path := data]> fs) [WriteFileSync path data]
  end.

(** [await pinata.pinFileToIPFS(stream, options)], the network call. *)
Definition pinFileToIPFS (sv : Services) (stream : ReadStream) (name : string)
    (cidVersion : N) : M string :=
  emit (PinFileToIPFS stream name cidVersion) ;; lift (pinning sv stream name cidVersion).

(** [await mintNFTree(to, tokenId, amount, tokenURI)]. *)
Definition mintNFTree (sv : Services) (to : option string) (tokenId amount : N)
    (tokenURI : string) : M Receipt :=
  emit (MintNFTreeCall to tokenId amount tokenURI) ;; lift (minting sv to tokenId amount tokenURI).

(** [process.env.NAME], read inside a function. *)
Definition process_env (h : Host) (name : string) : M (option string) :=
  emit (EnvRead name) ;; ret (env h !! name).

(** ** uploadToIPFS.js *)

(** The constants the module computes when it is loaded. *)
Record PinataModule := mkPinataModule {
  pinataApiKey : option string;
  pinataSecretApiKey : option string;
  gatewayURL : option string
}.

Definition uploadToIPFS_module (h : Host) : PinataModule :=
  {| pinataApiKey := env h !! "PINATA_API_KEY";
     pinataSecretApiKey := env h !! "PINATA_API_SECRET";
     gatewayURL := env h !! "PINATA_GATEWAY_URL" |}.

Definition MSG_NO_KEYS : string :=
  "As chaves da API Pinata (PINATA_API_KEY e PINATA_API_SECRET) não estão configuradas no arquivo .env.".

Definition MSG_NOT_FOUND (filePath : string) : string :=
  "Arquivo não encontrado: " +:+ filePath.

Definition uploadToIPFS (h : Host) (sv : Services) (m : PinataModule)
    (filePath : string) : M string :=
  try_catch
    (when (falsy (pinataApiKey m) || falsy (pinataSecretApiKey m))
       throw_new_Error MSG_NO_KEYS ;;
     found <- existsSync filePath ;;
     when (negb found) throw_new_Error (MSG_NOT_FOUND filePath) ;;
     readableStreamForFile <- createReadStream filePath ;;
     IpfsHash <- pinFileToIPFS sv readableStreamForFile (path_basename h filePath) 0 ;;
     console_log [AStr "Arquivo enviado para IPFS com sucesso!"] ;;
     console_log [AStr "ipfsCID: "; AStr IpfsHash] ;;
     ret (plus (gatewayURL m) IpfsHash))
    (fun error =>
       console_error [AStr "Erro ao fazer upload para o IPFS:"; AErr error] ;;
       throw error).

(** ** index.js *)

Definition MSG_NO_RECIPIENT : string :=
  "RECIPIENT_ADDRESS is not configured in the .env file.".

(** Writing [undefined] to a file is a [TypeError] of [fs.writeFileSync]. *)
Definition MSG_INVALID_DATA : string :=
  "The " +:+ DQUOTE +:+ "data" +:+ DQUOTE +:+
  " argument must be of type string or an instance of Buffer, TypedArray, or DataView. Received undefined".

Definition saveAttestationToJson (h : Host) (sv : Services)
    (attestationUID : string) (data : JsValue) : M unit :=
  let filePath := path_join h (dirname h) "attestation.json" in
  match JSON_stringify_2 data with
  | None => throw (mkError MSG_INVALID_DATA)
  | Some text => writeFileSync sv filePath text
  end ;;
  console_log [AStr ("Attestation saved to " +:+ filePath)].

(** The [try] block of the main function. *)
Definition workflow (h : Host) (sv : Services) (m : PinataModule) : M unit :=
  console_log [AStr "Step 1: Creating attestation..."] ;;
  attestationUID <- createAttestation sv ;;
  console_log [AStr "Attestation created successfully. UID:"; AStr attestationUID] ;;
  console_log [AStr "Step 2: Saving attestation data to JSON file..."] ;;
  let attestationData :=
    JObject [("name", JString "AttestationUID"); ("value", JString attestationUID)] in
  saveAttestationToJson h sv attestationUID attestationData ;;
  console_log [AStr "Step 3: Uploading attestation JSON file to IPFS..."] ;;
  let filePath := path_join h (dirname h) "metadataNFTree" in
  emit (UploadToIPFSCall filePath) ;;
  ipfsCID <- uploadToIPFS h sv m filePath ;;
  console_log [AStr "File uploaded to IPFS successfully! CID:"; AStr ipfsCID] ;;
  console_log [AStr "Step 4: Minting ERC-1155 NFT..."] ;;
  recipient <- process_env h "RECIPIENT_ADDRESS" ;;
  let tokenId := 2%N in
  let amount := 1%N in
  let tokenURI := ipfsCID in
  when (falsy recipient) throw_new_Error MSG_NO_RECIPIENT ;;
  mintReceipt <- mintNFTree sv recipient tokenId amount tokenURI ;;
  console_log [AStr "ERC-1155 NFT minted successfully! Transaction details:";
               AReceipt mintReceipt] ;;
  console_log [AStr "Workflow completed successfully!"].

(** The main function: the [try] block and its [catch]. *)
Definition main (h : Host) (sv : Services) (m : PinataModule) : M unit :=
  try_catch (workflow h sv m)
    (fun error => console_error [AStr "Error in main process:"; AErr error]).

(** One execution of [node index.js]: the modules are loaded, then the
    main function runs. *)
Definition runWorkflow (h : Host) (sv : Services) : M unit :=
  main h sv (uploadToIPFS_module h).

(** How the promise of the main function settles, and the exit code of
    the process: the script sets no exit code itself, so the process
    exits with 0 unless the promise is rejected (an unhandled rejection). *)
Inductive Settlement := Fulfilled | Rejected (e : JsError).

Definition settle {A} (r : Res A) : Settlement :=
  match outcome r with
  | inl e => Rejected e
  | inr _ => Fulfilled
  end.

Definition exitCode (s : Settlement) : N :=
  match s with
  | Fulfilled => 0
  | Rejected _ => 1
  end.

(** ** The contract ResearchNFT *)

Module Sol.

Definition address := N.
Definition uint256 := N.

(** Why a call reverts: a failed [require] with its reason string, the
    [onlyOwner] modifier, or an error of the inherited token code. *)
Inductive Error :=
| RequireFailed (reason : string)
| OwnableUnauthorizedAccount (account : address)
| InheritedError (name : string).

Inductive result (A : Type) :=
| Ok (a : A)
| Revert (e : Error).
Arguments Ok {A} _.
Arguments Revert {A} _.

(** What ResearchNFT inherits from the token library ([Ownable],
    [ERC1155], [ERC1155Burnable]): a storage of its own, the current
    owner, and the internal [_mint]. The inherited code cannot touch the
    three [private] variables of ResearchNFT; the receiver hook that
    [_mint] may call is taken not to call back into ResearchNFT. *)
Class Inherited := {
  Storage : Type;
  owner : Storage -> address;
  _mint : address -> address -> uint256 -> uint256 -> string -> Storage -> result Storage
}.

(** [mapping] update. *)
Definition upd {V} (m : uint256 -> V) (k : uint256) (v : V) : uint256 -> V :=
  fun k' => if N.eqb k' k then v else m k'.

(** [bytes(s).length > 0]. *)
Definition nonempty (s : string) : bool := Nat.ltb 0 (String.length s).

Section Contract.
Context {I : Inherited}.

Record State := mkState {
  inherited : Storage;
  _baseURI : string;
  _tokenMetadata : uint256 -> string;
  _metadataHistory : uint256 -> list string
}.

(** The state the constructor leaves, given the inherited storage that
    the constructors of the base contracts have set up. *)
Definition constructor (base : Storage) (baseURI : string) : State :=
  {| inherited := base;
     _baseURI := baseURI;
     _tokenMetadata := fun _ => EmptyString;
     _metadataHistory := fun _ => [] |}.

Definition _setBaseURI (baseURI : string) (s : State) : State :=
  {| inherited := inherited s;
     _baseURI := baseURI;
     _tokenMetadata := _tokenMetadata s;
     _metadataHistory := _metadataHistory s |}.

Definition uri (tokenId : uint256) (s : State) : string := _baseURI s.

(** The modifier [onlyOwner]. *)
Definition onlyOwner {A} (sender : address) (s : State) (body : result A) : result A :=
  if N.eqb (owner (inherited s)) sender then body
  else Revert (OwnableUnauthorizedAccount sender).

Definition mint (sender : address) (account : address) (id amount : uint256)
    (ipfsURL : string) (s : State) : result State :=
  onlyOwner sender s
    (if negb (nonempty ipfsURL) then Revert (RequireFailed "IPFS URL cannot be empty")
     else
       match _mint sender account id amount EmptyString (inherited s) with
       | Revert e => Revert e
       | Ok base' =>
           Ok {| inherited := base';
                 _baseURI := _baseURI s;
                 _tokenMetadata := upd (_tokenMetadata s) id ipfsURL;
                 _metadataHistory :=
                   upd (_metadataHistory s) id (_metadataHistory s id ++ [ipfsURL]) |}
       end).

Definition updateTokenMetadata (sender : address) (id : uint256)
    (newIpfsURL : string) (s : State) : result State :=
  onlyOwner sender s
    (if negb (nonempty newIpfsURL) then Revert (RequireFailed "IPFS URL cannot be empty")
     else if negb (nonempty (_tokenMetadata s id))
     then Revert (RequireFailed "Token ID does not exist")
     else
       Ok {| inherited := inherited s;
             _baseURI := _baseURI s;
             _tokenMetadata := upd (_tokenMetadata s) id newIpfsURL;
             _metadataHistory :=
               upd (_metadataHistory s) id (_metadataHistory s id ++ [newIpfsURL]) |}).

Definition getTokenMetadata (id : uint256) (s : State) : result string :=
  if negb (nonempty (_tokenMetadata s id))
  then Revert (RequireFailed "Token ID does not exist")
  else Ok (_tokenMetadata s id).

Definition getMetadataHistory (id : uint256) (s : State) : result (list string) :=
  if negb (Nat.ltb 0 (length (_metadataHistory s id)))
  then Revert (RequireFailed "No history for this token ID")
  else Ok (_metadataHistory s id).

Definition updateBaseURI (sender : address) (newBaseURI : string) (s : State)
    : result State :=
  onlyOwner sender s (Ok (_setBaseURI newBaseURI s)).

(** *** Transactions *)

(** A transaction sent to the contract: one of its three mutators, or a
    call of an inherited function (transfer, burn, approval, change of
    owner), which can leave any inherited storage and nothing else. *)
Inductive Call :=
| CallMint (sender account : address) (id amount : uint256) (ipfsURL : string)
| CallUpdateTokenMetadata (sender : address) (id : uint256) (newIpfsURL : string)
| CallUpdateBaseURI (sender : address) (newBaseURI : string)
| CallInherited (base' : Storage).

Definition exec (c : Call) (s : State) : result State :=
  match c with
  | CallMint sender account id amount ipfsURL => mint sender account id amount ipfsURL s
  | CallUpdateTokenMetadata sender id newIpfsURL => updateTokenMetadata sender id newIpfsURL s
  | CallUpdateBaseURI sender newBaseURI => updateBaseURI sender newBaseURI s
  | CallInherited base' =>
      Ok {| inherited := base';
            _baseURI := _baseURI s;
            _tokenMetadata := _tokenMetadata s;
            _metadataHistory := _metadataHistory s |}
  end.

(** The storage after a transaction: a reverted call changes nothing. *)
Definition after (c : Call) (s : State) : State :=
  match exec c s with
  | Ok s' => s'
  | Revert _ => s
  end.

Definition succeeds (c : Call) (s : State) : bool :=
  match exec c s with
  | Ok _ => true
  | Revert _ => false
  end.

(** The storage after a sequence of transactions. *)
Fixpoint run (cs : list Call) (s : State) : State :=
  match cs with
  | [] => s
  | c :: r => run r (after c s)
  end.

Definition is_mint_of (id : uint256) (c : Call) : bool :=
  match c with
  | CallMint _ _ id' _ _ => N.eqb id' id
  | _ => false
  end.

(** Whether some transaction of the sequence is a mint of class [id]
    that went through. *)
Fixpoint minted (id : uint256) (cs : list Call) (s : State) : bool :=
  match cs with
  | [] => false
  | c :: r => (is_mint_of id c && succeeds c s) || minted id r (after c s)
  end.

(** The states the contract can be in: the constructor's, followed by
    any transactions. *)
Inductive reachable : State -> Prop :=
| reach_constructor base baseURI : reachable (constructor base baseURI)
| reach_call c s : reachable s -> reachable (after c s).

(** The invariant of the metadata pointer of class [id]: the history
    ends with the current URI (both empty before the first mint) and
    holds no empty URI. *)
Definition pointer_inv (s : State) (id : uint256) : Prop :=
  List.last (_metadataHistory s id) EmptyString = _tokenMetadata s id
  /\ Forall (fun u => u <> EmptyString) (_metadataHistory s id).

End Contract.

(** A token library instance in the manner of OpenZeppelin's ERC1155 and
    Ownable, used to run the contract on examples: [_mint] rejects the
    zero address and a balance above [2^256 - 1], and asks a contract
    receiver to accept. *)
Record OZStorage := mkOZ {
  oz_owner : address;
  oz_balances : uint256 -> address -> uint256;
  oz_accepts : address -> bool
}.

Definition MAX_UINT256 : N := (2 ^ 256 - 1)%N.

Definition oz_mint (operator to : address) (id value : uint256) (data : string)
    (b : OZStorage) : result OZStorage :=
  if N.eqb to 0 then Revert (InheritedError "ERC1155InvalidReceiver")
  else if N.ltb MAX_UINT256 (oz_balances b id to + value)%N
  then Revert (InheritedError "Panic(0x11)")
  else if negb (oz_accepts b to) then Revert (InheritedError "ERC1155InvalidReceiver")
  else Ok {| oz_owner := oz_owner b;
             oz_balances := fun i a =>
               if N.eqb i id && N.eqb a to then (oz_balances b id to + value)%N
               else oz_balances b i a;
             oz_accepts := oz_accepts b |}.

Definition OZ : Inherited :=
  {| Storage := OZStorage; owner := oz_owner; _mint := oz_mint |}.

End Sol.

Import Sol.

(** ** Observations on a run of the workflow *)

(** The five steps of the workflow, and the event by which each shows
    in the list of events of a run. *)
Inductive Step := SAttest | SPersist | SUpload | SRecipient | SMint.

Definition step_of (e : Event) : option Step :=
  match e with
  | CreateAttestationCall => Some SAttest
  | WriteFileSync _ _ => Some SPersist
  | UploadToIPFSCall _ => Some SUpload
  | EnvRead _ => Some SRecipient
  | MintNFTreeCall _ _ _ _ => Some SMint
  | _ => None
  end.

Fixpoint steps_of (evs : list Event) : list Step :=
  match evs with
  | [] => []
  | e :: r =>
      match step_of e with
      | Some st => st :: steps_of r
      | None => steps_of r
      end
  end.

Definition five_steps : list Step := [SAttest; SPersist; SUpload; SRecipient; SMint].

(** The arguments of the calls of [mintNFTree] in a list of events. *)
Fixpoint mint_calls (evs : list Event) : list (option string * N * N * string) :=
  match evs with
  | [] => []
  | MintNFTreeCall to tokenId amount tokenURI :: r =>
      (to, tokenId, amount, tokenURI) :: mint_calls r
  | _ :: r => mint_calls r
  end.

(** The number of calls of the pinning service in a list of events. *)
Fixpoint network_calls (evs : list Event) : nat :=
  match evs with
  | [] => 0
  | PinFileToIPFS _ _ _ :: r => S (network_calls r)
  | _ :: r => network_calls r
  end.

(** The path of the record file and of the file that is uploaded. *)
Definition record_path (h : Host) : string := path_join h (dirname h) "attestation.json".
Definition metadata_path (h : Host) : string := path_join h (dirname h) "metadataNFTree".

(** The pretty-printed JSON object with the two members [name] and
    [value], written out: two spaces of indentation, one member a line. *)
Definition attestation_record (u : string) : string :=
  "{" +:+ LF +:+
  "  " +:+ DQUOTE +:+ "name" +:+ DQUOTE +:+ ": " +:+ DQUOTE +:+ "AttestationUID" +:+ DQUOTE +:+ "," +:+ LF +:+
  "  " +:+ DQUOTE +:+ "value" +:+ DQUOTE +:+ ": " +:+ QuoteJSONString u +:+ LF +:+
  "}".

(** The [try] block of the main function ran to its end. *)
Definition completed (h : Host) (sv : Services) (fs : gmap string string) : Prop :=
  outcome (workflow h sv (uploadToIPFS_module h) fs) = inr tt.

(** The [try] block of the main function threw [e]. *)
Definition raised (h : Host) (sv : Services) (fs : gmap string string) (e : JsError) : Prop :=
  outcome (workflow h sv (uploadToIPFS_module h) fs) = inl e.

(** A host and services for examples: scripts in [/app], every option
    configured but the gateway, services that answer with the attestation
    UID [0xabc] and the content identifier [Qm123]. *)
Definition sample_join (a b : string) : string := a +:+ "/" +:+ b.

Definition sample_host (vars : list (string * string)) : Host :=
  {| env := list_to_map vars;
     dirname := "/app";
     path_join := sample_join;
     path_basename := fun _ => "metadataNFTree" |}.

Definition sample_env : list (string * string) :=
  [("PINATA_API_KEY", "key"); ("PINATA_API_SECRET", "secret");
   ("RECIPIENT_ADDRESS", "0xf703e22985579d53284648Ba4C56735d6B746c2d")].

Definition sample_gateway : string := "https://gateway.pinata.cloud/ipfs/".

Definition configured_env : list (string * string) :=
  sample_env ++ [("PINATA_GATEWAY_URL", sample_gateway)].

Definition sample_services (uid : string) : Services :=
  {| attestation := inr uid;
     write_fault := None;
     pinning := fun _ _ _ => inr "Qm123";
     minting := fun _ _ _ _ => inr (mkReceipt "receipt") |}.

Definition failing_attestation : Services :=
  {| attestation := inl (mkError "attest failed");
     write_fault := None;
     pinning := fun _ _ _ => inr "Qm123";
     minting := fun _ _ _ _ => inr (mkReceipt "receipt") |}.

Definition sample_files : gmap string string :=
  {[ "/app/metadataNFTree" := "{}" ]}.

(** The events of a run of the [try] block up to the call of
    [uploadToIPFS], once the attestation [u] has been created and saved,
    and the events that follow the upload when it returned [url]. *)
Definition events_to_upload (h : Host) (u : string) : list Event :=
  [ConsoleLog [AStr "Step 1: Creating attestation..."];
   CreateAttestationCall;
   ConsoleLog [AStr "Attestation created successfully. UID:"; AStr u];
   ConsoleLog [AStr "Step 2: Saving attestation data to JSON file..."];
   WriteFileSync (record_path h) (attestation_record u);
   ConsoleLog [AStr ("Attestation saved to " +:+ record_path h)];
   ConsoleLog [AStr "Step 3: Uploading attestation JSON file to IPFS..."];
   UploadToIPFSCall (metadata_path h)].

Definition events_to_recipient (url : string) : list Event :=
  [ConsoleLog [AStr "File uploaded to IPFS successfully! CID:"; AStr url];
   ConsoleLog [AStr "Step 4: Minting ERC-1155 NFT..."];
   EnvRead "RECIPIENT_ADDRESS"].

Definition MAIN_ERROR (e : JsError) : Event :=
  ConsoleError [AStr "Error in main process:"; AErr e].

Definition UPLOAD_ERROR (e : JsError) : Event :=
  ConsoleError [AStr "Erro ao fazer upload para o IPFS:"; AErr e].

(** The files once the record of attestation [u] is saved, and the
    upload that follows in the same run. *)
Definition saved (h : Host) (fs : gmap string string) (u : string) : gmap string string :=
  <[record_path h := attestation_record u]> fs.

Definition upload (h : Host) (sv : Services) (m : PinataModule)
    (fs : gmap string string) (u : string) : Res string :=
  uploadToIPFS h sv m (metadata_path h) (saved h fs u).

Definition recipient (h : Host) : option string := env h !! "RECIPIENT_ADDRESS".

(** A deployed contract for examples: owner 1, no balances, receivers
    that accept. *)
Definition sample_base : OZStorage :=
  {| oz_owner := 1%N; oz_balances := fun _ _ => 0%N; oz_accepts := fun _ => true |}.

Definition sample_contract : @State OZ := @constructor OZ sample_base "ipfs://base/".

(** Calls by the owner: a mint of one token of class 2 to account 5, an
    update of the metadata of class 2, a change of the base URI. *)
Definition sample_mint (url : string) : @Call OZ := CallMint 1%N 5%N 2%N 1%N url.
Definition sample_update (url : string) : @Call OZ := CallUpdateTokenMetadata 1%N 2%N url.
Definition sample_rebase : @Call OZ := CallUpdateBaseURI 1%N "ipfs://other/".

(** ** The script of uploadToIPFS.js run on its own *)

Module UploadScript.

Definition SAMPLE_TEXT : string := "Este é um arquivo de exemplo para upload no IPFS.".

(** The function [main] of [uploadToIPFS.js]: it creates the file to
    upload when it is not there, uploads it, and returns the URL, or
    [undefined] after an upload error, which it only logs. *)
Definition main (h : Host) (sv : Services) (m : PinataModule) : M (option string) :=
  let fileToUploadPath := path_join h (dirname h) "metadataNFTree" in
  found <- existsSync fileToUploadPath ;;
  (if negb found
   then
     writeFileSync sv fileToUploadPath SAMPLE_TEXT ;;
     console_log [AStr ("Arquivo de exemplo " +:+ DQUOTE +:+ fileToUploadPath
                          +:+ DQUOTE +:+ " criado.")]
   else ret tt) ;;
  try_catch
    (cid <- uploadToIPFS h sv m fileToUploadPath ;;
     console_log [AStr ("CID retornado: " +:+ cid)] ;;
     ret (Some cid))
    (fun error =>
       console_error [AStr "Falha no upload do arquivo:"; AErr error] ;;
       ret None).

(** The module as a program: [main] runs only when the file is the entry
    point of the process ([require.main === module]). *)
Definition script (direct : bool) (h : Host) (sv : Services) : M unit :=
  if direct then main h sv (uploadToIPFS_module h) ;; ret tt else ret tt.

End UploadScript.

(** ** Further observations *)

(** The arguments of the calls of the pinning service in a list of events. *)
Fixpoint pin_calls (evs : list Event) : list (ReadStream * string * N) :=
  match evs with
  | [] => []
  | PinFileToIPFS stream name cidVersion :: r => (stream, name, cidVersion) :: pin_calls r
  | _ :: r => pin_calls r
  end.

(** The file writes in a list of events. *)
Fixpoint writes (evs : list Event) : list (string * string) :=
  match evs with
  | [] => []
  | WriteFileSync path data :: r => (path, data) :: writes r
  | _ :: r => writes r
  end.

(** The same services, with another result of [createAttestation]. *)
Definition with_attestation (sv : Services) (a : JsError + string) : Services :=
  {| attestation := a;
     write_fault := write_fault sv;
     pinning := pinning sv;
     minting := minting sv |}.

(** Both keys of the pinning service are configured. *)
Definition keys_present (m : PinataModule) : bool :=
  negb (falsy (pinataApiKey m) || falsy (pinataSecretApiKey m)).

(** A character that [QuoteJSONString] leaves as it is. *)
Definition plainChar (c : ascii) : bool :=
  let n := nat_of_ascii c in
  Nat.leb 32 n && negb (Nat.eqb n 34) && negb (Nat.eqb n 92).

Fixpoint plain (s : string) : bool :=
  match s with
  | EmptyString => true
  | String c r => plainChar c && plain r
  end.

(** Reading back one character of a quoted string (used to show that
    quoting loses nothing): an escape gives the character it stands for,
    a plain character itself; a bare quote or control character, or the
    end of the text, gives nothing. *)
Definition hexValue (c : ascii) : option nat :=
  let n := nat_of_ascii c in
  if Nat.leb 48 n && Nat.leb n 57 then Some (n - 48)
  else if Nat.leb 97 n && Nat.leb n 102 then Some (n - 87)
  else None.

Definition unquoteChar (s : string) : option (ascii * string) :=
  match s with
  | EmptyString => None
  | String c r =>
      if Nat.eqb (nat_of_ascii c) 92 then
        match r with
        | EmptyString => None
        | String e r' =>
            match nat_of_ascii e with
            | 98 => Some (ascii_of_nat 8, r')
            | 116 => Some (ascii_of_nat 9, r')
            | 110 => Some (ascii_of_nat 10, r')
            | 102 => Some (ascii_of_nat 12, r')
            | 114 => Some (ascii_of_nat 13, r')
            | 34 => Some (ascii_of_nat 34, r')
            | 92 => Some (ascii_of_nat 92, r')
            | 117 =>
                match r' with
                | String z1 (String z2 (String h1 (String h2 r''))) =>
                    match hexValue z1, hexValue z2, hexValue h1, hexValue h2 with
                    | Some 0, Some 0, Some a, Some b => Some (ascii_of_nat (16 * a + b), r'')
                    | _, _, _, _ => None
                    end
                | _ => None
                end
            | _ => None
            end
        end
      else if plainChar c then Some (c, r)
      else None
  end.

(** ** Further observations on the contract *)

(** The URI a transaction pushes on the history of class [id]: that of
    a mint or of a metadata update of this class that goes through. *)
Definition pushes {I : Inherited} (id : uint256) (c : Call) (s : State) : list string :=
  match c with
  | CallMint _ _ id' _ url => if N.eqb id' id && succeeds c s then [url] else []
  | CallUpdateTokenMetadata _ id' url => if N.eqb id' id && succeeds c s then [url] else []
  | _ => []
  end.

Fixpoint pushed {I : Inherited} (id : uint256) (cs : list Call) (s : State) : list string :=
  match cs with
  | [] => []
  | c :: r => pushes id c s ++ pushed id r (after c s)
  end.

(** The base URIs set by the calls of [updateBaseURI] that go through. *)
Fixpoint rebased {I : Inherited} (cs : list Call) (s : State) : list string :=
  match cs with
  | [] => []
  | c :: r =>
      match c with
      | CallUpdateBaseURI _ newBaseURI => if succeeds c s then [newBaseURI] else []
      | _ => []
      end ++ rebased r (after c s)
  end.

(** The sender of a transaction that calls one of the three mutators of
    ResearchNFT. *)
Definition mutator_sender {I : Inherited} (c : Call) : option address :=
  match c with
  | CallMint sender _ _ _ _ => Some sender
  | CallUpdateTokenMetadata sender _ _ => Some sender
  | CallUpdateBaseURI sender _ => Some sender
  | CallInherited _ => None
  end.

(** The last line of a run that went well. *)
Definition SUCCESS_LOG : Event := ConsoleLog [AStr "Workflow completed successfully!"].

(** Services whose pinning service rejects every upload, and a call of
    the contract by an account that is not the owner. *)
Definition failing_pinning : Services :=
  {| attestation := inr "0xabc";
     write_fault := None;
     pinning := fun _ _ _ => inl (mkError "pin failed");
     minting := fun _ _ _ _ => inr (mkReceipt "receipt") |}.

Definition stranger_mint : @Call OZ := CallMint 7%N 7%N 2%N 1%N "ipfs://x".

(** A host with everything configured but the recipient, and a contract
    that already holds metadata: class 2 minted with one URI and class 3
    with another. *)
Definition no_recipient_env : list (string * string) :=
  [("PINATA_API_KEY", "key"); ("PINATA_API_SECRET", "secret");
   ("PINATA_GATEWAY_URL", sample_gateway)].

Definition sample_mint3 : @Call OZ := CallMint 1%N 6%N 3%N 4%N "ipfs://c".

Definition minted_contract : @State OZ :=
  run [sample_mint "ipfs://a"; sample_mint3] sample_contract.

(** * Properties *)

(** ** Evaluation of the scripts *)

Ltac unfold_js :=
  unfold uploadToIPFS, saveAttestationToJson,
    createAttestation, mintNFTree, pinFileToIPFS, process_env, writeFileSync,
    existsSync, createReadStream, console_log, console_error, emit, lift,
    try_catch, bind, ret, throw in *.

(** Evaluate as far as the known results of the collaborators allow. *)
Ltac js_eval :=
  repeat (progress (cbn;
    repeat match goal with
           | H : ?l = _ |- context [?l] => rewrite H
           end)).

Lemma append_assoc (a b c : string) : (a +:+ b) +:+ c = a +:+ (b +:+ c).
Proof.
  induction a as [|x a IH]; [reflexivity|].
  change (String x ((a +:+ b) +:+ c) = String x (a +:+ (b +:+ c))).
  now rewrite IH.
Qed.

Lemma steps_of_app (a b : list Event) : steps_of (a ++ b) = steps_of a ++ steps_of b.
Proof.
  induction a as [|e a IH]; cbn; [reflexivity|].
  destruct (step_of e); cbn; now rewrite IH.
Qed.

Lemma mint_calls_app (a b : list Event) : mint_calls (a ++ b) = mint_calls a ++ mint_calls b.
Proof.
  induction a as [|e a IH]; cbn; [reflexivity|].
  destruct e; cbn; now rewrite IH.
Qed.

Lemma network_calls_app (a b : list Event) :
  network_calls (a ++ b) = network_calls a + network_calls b.
Proof.
  induction a as [|e a IH]; cbn; [reflexivity|].
  destruct e; cbn; now rewrite IH.
Qed.

(** *** uploadToIPFS, case by case *)

Lemma upload_no_keys h sv m filePath fs :
  falsy (pinataApiKey m) || falsy (pinataSecretApiKey m) = true ->
  uploadToIPFS h sv m filePath fs =
    mkRes (inl (mkError MSG_NO_KEYS)) fs [UPLOAD_ERROR (mkError MSG_NO_KEYS)].
Proof.
  intros Hk. unfold_js. js_eval. reflexivity.
Qed.

Lemma upload_not_found h sv m filePath fs :
  falsy (pinataApiKey m) || falsy (pinataSecretApiKey m) = false ->
  fs !! filePath = None ->
  uploadToIPFS h sv m filePath fs =
    mkRes (inl (mkError (MSG_NOT_FOUND filePath))) fs
      [UPLOAD_ERROR (mkError (MSG_NOT_FOUND filePath))].
Proof.
  intros Hk Hf. unfold_js. js_eval. reflexivity.
Qed.

Lemma upload_pinned h sv m filePath fs content :
  falsy (pinataApiKey m) || falsy (pinataSecretApiKey m) = false ->
  fs !! filePath = Some content ->
  uploadToIPFS h sv m filePath fs =
    match pinning sv (Some content) (path_basename h filePath) 0 with
    | inr cid =>
        mkRes (inr (plus (gatewayURL m) cid)) fs
          [PinFileToIPFS (Some content) (path_basename h filePath) 0;
           ConsoleLog [AStr "Arquivo enviado para IPFS com sucesso!"];
           ConsoleLog [AStr "ipfsCID: "; AStr cid]]
    | inl e =>
        mkRes (inl e) fs
          [PinFileToIPFS (Some content) (path_basename h filePath) 0; UPLOAD_ERROR e]
    end.
Proof.
  intros Hk Hf.
  destruct (pinning sv (Some content) (path_basename h filePath) 0) eqn:Hp;
    unfold_js; js_eval; reflexivity.
Qed.

(** [uploadToIPFS] leaves the files as they are, and performs none of the
    five steps of the workflow itself. *)
Lemma upload_frame h sv m filePath fs :
  files (uploadToIPFS h sv m filePath fs) = fs
  /\ steps_of (events (uploadToIPFS h sv m filePath fs)) = []
  /\ mint_calls (events (uploadToIPFS h sv m filePath fs)) = [].
Proof.
  destruct (falsy (pinataApiKey m) || falsy (pinataSecretApiKey m)) eqn:Hk.
  - rewrite upload_no_keys by assumption. cbn. auto.
  - destruct (fs !! filePath) as [content|] eqn:Hf.
    + rewrite (upload_pinned _ _ _ _ _ content) by assumption.
      destruct (pinning sv (Some content) (path_basename h filePath) 0); cbn; auto.
    + rewrite upload_not_found by assumption. cbn. auto.
Qed.

(** *** index.js, case by case *)

Lemma stringify_attestationData (u : string) :
  JSON_stringify_2 (JObject [("name", JString "AttestationUID"); ("value", JString u)])
  = Some (attestation_record u).
Proof.
  unfold JSON_stringify_2, attestation_record. cbn.
  unfold QuoteJSONString. rewrite !append_assoc. reflexivity.
Qed.

Lemma save_ok h sv u fs :
  write_fault sv = None ->
  saveAttestationToJson h sv u
    (JObject [("name", JString "AttestationUID"); ("value", JString u)]) fs
  = mkRes (inr tt) (<[record_path h := attestation_record u]> fs)
      [WriteFileSync (record_path h) (attestation_record u);
       ConsoleLog [AStr ("Attestation saved to " +:+ record_path h)]].
Proof.
  intros Hw. unfold saveAttestationToJson. rewrite stringify_attestationData.
  unfold_js. js_eval. reflexivity.
Qed.

Lemma save_fault h sv u fs e :
  write_fault sv = Some e ->
  saveAttestationToJson h sv u
    (JObject [("name", JString "AttestationUID"); ("value", JString u)]) fs
  = mkRes (inl e) fs [WriteFileSync (record_path h) (attestation_record u)].
Proof.
  intros Hw. unfold saveAttestationToJson. rewrite stringify_attestationData.
  unfold_js. js_eval. reflexivity.
Qed.

Section Workflow.
Variables (h : Host) (sv : Services) (m : PinataModule) (fs : gmap string string).

Lemma workflow_attestation_fails e :
  attestation sv = inl e ->
  workflow h sv m fs =
    mkRes (inl e) fs
      [ConsoleLog [AStr "Step 1: Creating attestation..."]; CreateAttestationCall].
Proof.
  intros Ha. unfold workflow. unfold_js. js_eval. reflexivity.
Qed.

Lemma workflow_write_fails u e :
  attestation sv = inr u -> write_fault sv = Some e ->
  workflow h sv m fs =
    mkRes (inl e) fs
      [ConsoleLog [AStr "Step 1: Creating attestation..."];
       CreateAttestationCall;
       ConsoleLog [AStr "Attestation created successfully. UID:"; AStr u];
       ConsoleLog [AStr "Step 2: Saving attestation data to JSON file..."];
       WriteFileSync (record_path h) (attestation_record u)].
Proof.
  intros Ha Hw. pose proof (save_fault h sv u fs e Hw) as Hs.
  unfold workflow, createAttestation, console_log, emit, lift, bind.
  js_eval. reflexivity.
Qed.

Lemma workflow_upload_fails u e :
  attestation sv = inr u -> write_fault sv = None ->
  outcome (upload h sv m fs u) = inl e ->
  workflow h sv m fs =
    mkRes (inl e) (saved h fs u) (events_to_upload h u ++ events (upload h sv m fs u)).
Proof.
  intros Ha Hw Hu. pose proof (save_ok h sv u fs Hw) as Hs.
  destruct (upload_frame h sv m (metadata_path h) (saved h fs u)) as (Hf & _).
  unfold upload, saved in *.
  destruct (uploadToIPFS h sv m (metadata_path h) _) as [o f ev] eqn:Hup.
  cbn in Hu, Hf. subst o f.
  unfold workflow, createAttestation, console_log, emit, lift, bind.
  fold (metadata_path h). js_eval. reflexivity.
Qed.

Lemma workflow_no_recipient u url :
  attestation sv = inr u -> write_fault sv = None ->
  outcome (upload h sv m fs u) = inr url ->
  falsy (recipient h) = true ->
  workflow h sv m fs =
    mkRes (inl (mkError MSG_NO_RECIPIENT)) (saved h fs u)
      (events_to_upload h u ++ events (upload h sv m fs u) ++ events_to_recipient url).
Proof.
  intros Ha Hw Hu Hr. pose proof (save_ok h sv u fs Hw) as Hs.
  destruct (upload_frame h sv m (metadata_path h) (saved h fs u)) as (Hf & _).
  unfold upload, saved, recipient in *.
  destruct (uploadToIPFS h sv m (metadata_path h) _) as [o f ev] eqn:Hup.
  cbn in Hu, Hf. subst o f.
  unfold workflow, createAttestation, process_env, console_log, emit, lift, bind, ret, throw.
  fold (metadata_path h). js_eval. reflexivity.
Qed.

Lemma workflow_mint_fails u url e :
  attestation sv = inr u -> write_fault sv = None ->
  outcome (upload h sv m fs u) = inr url ->
  falsy (recipient h) = false ->
  minting sv (recipient h) 2 1 url = inl e ->
  workflow h sv m fs =
    mkRes (inl e) (saved h fs u)
      (events_to_upload h u ++ events (upload h sv m fs u) ++ events_to_recipient url
       ++ [MintNFTreeCall (recipient h) 2 1 url]).
Proof.
  intros Ha Hw Hu Hr Hm. pose proof (save_ok h sv u fs Hw) as Hs.
  destruct (upload_frame h sv m (metadata_path h) (saved h fs u)) as (Hf & _).
  unfold upload, saved, recipient in *.
  destruct (uploadToIPFS h sv m (metadata_path h) _) as [o f ev] eqn:Hup.
  cbn in Hu, Hf. subst o f.
  unfold workflow, createAttestation, mintNFTree, process_env, console_log, emit, lift,
    bind, ret, throw.
  fold (metadata_path h). js_eval. reflexivity.
Qed.

Lemma workflow_completes u url r :
  attestation sv = inr u -> write_fault sv = None ->
  outcome (upload h sv m fs u) = inr url ->
  falsy (recipient h) = false ->
  minting sv (recipient h) 2 1 url = inr r ->
  workflow h sv m fs =
    mkRes (inr tt) (saved h fs u)
      (events_to_upload h u ++ events (upload h sv m fs u) ++ events_to_recipient url
       ++ [MintNFTreeCall (recipient h) 2 1 url;
           ConsoleLog [AStr "ERC-1155 NFT minted successfully! Transaction details:";
                       AReceipt r];
           ConsoleLog [AStr "Workflow completed successfully!"]]).
Proof.
  intros Ha Hw Hu Hr Hm. pose proof (save_ok h sv u fs Hw) as Hs.
  destruct (upload_frame h sv m (metadata_path h) (saved h fs u)) as (Hf & _).
  unfold upload, saved, recipient in *.
  destruct (uploadToIPFS h sv m (metadata_path h) _) as [o f ev] eqn:Hup.
  cbn in Hu, Hf. subst o f.
  unfold workflow, createAttestation, mintNFTree, process_env, console_log, emit, lift,
    bind, ret, throw.
  fold (metadata_path h). js_eval. reflexivity.
Qed.

End Workflow.

(** The main function turns an error of its [try] block into a line on
    the error console, and always returns normally. *)
Lemma main_of_workflow h sv m fs :
  main h sv m fs =
    match workflow h sv m fs with
    | mkRes (inl e) fs' evs => mkRes (inr tt) fs' (evs ++ [MAIN_ERROR e])
    | mkRes (inr a) fs' evs => mkRes (inr a) fs' evs
    end.
Proof.
  unfold main, try_catch. destruct (workflow h sv m fs) as [[e|a] fs' evs]; reflexivity.
Qed.

(** Split a run of the [try] block into its six possible courses. *)
Ltac workflow_cases h sv m fs :=
  let e := fresh "e" in
  let u := fresh "u" in
  let url := fresh "url" in
  let r := fresh "r" in
  let Ha := fresh "Ha" in
  let Hw := fresh "Hw" in
  let Hu := fresh "Hu" in
  let Hr := fresh "Hr" in
  let Hm := fresh "Hm" in
  destruct (attestation sv) as [e|u] eqn:Ha;
  [ rewrite (workflow_attestation_fails h sv m fs e Ha) in *
  | destruct (write_fault sv) as [e|] eqn:Hw;
    [ rewrite (workflow_write_fails h sv m fs u e Ha Hw) in *
    | destruct (outcome (upload h sv m fs u)) as [e|url] eqn:Hu;
      [ rewrite (workflow_upload_fails h sv m fs u e Ha Hw Hu) in *
      | destruct (falsy (recipient h)) eqn:Hr;
        [ rewrite (workflow_no_recipient h sv m fs u url Ha Hw Hu Hr) in *
        | destruct (minting sv (recipient h) 2 1 url) as [e|r] eqn:Hm;
          [ rewrite (workflow_mint_fails h sv m fs u url e Ha Hw Hu Hr Hm) in *
          | rewrite (workflow_completes h sv m fs u url r Ha Hw Hu Hr Hm) in * ] ] ] ] ].

Lemma upload_steps h sv m fs u :
  steps_of (events (upload h sv m fs u)) = []
  /\ mint_calls (events (upload h sv m fs u)) = [].
Proof.
  unfold upload.
  destruct (upload_frame h sv m (metadata_path h) (saved h fs u)) as (_ & Hs & Hm).
  auto.
Qed.

(** Once the attestation is created and the write goes through, the record
    file holds the record of this run, whatever the later steps do. *)
Lemma run_saves_record h sv fs u :
  attestation sv = inr u -> write_fault sv = None ->
  files (runWorkflow h sv fs) = saved h fs u.
Proof.
  intros Ha Hw. unfold runWorkflow. rewrite main_of_workflow.
  workflow_cases h sv (uploadToIPFS_module h) fs; cbn; congruence.
Qed.

Lemma saved_record h fs u : saved h fs u !! record_path h = Some (attestation_record u).
Proof. unfold saved. apply lookup_insert_eq. Qed.

Lemma completed_inv h sv fs :
  completed h sv fs -> exists u, attestation sv = inr u /\ write_fault sv = None.
Proof.
  unfold completed.
  workflow_cases h sv (uploadToIPFS_module h) fs; cbn; intros Hc;
    try discriminate Hc; eauto.
Qed.

(** ** The order of the steps *)

(** C1. In every run the five steps (create the attestation, write the
    record file, upload the fixed file, read the recipient, mint) are
    performed in this order, each at most once, and all five when none
    fails: the run then completes with the one call of [mintNFTree]; the
    step that raises an error is the last one performed, its error is the
    one that ends the [try] block, the record file written before it stays
    written, and when the recipient is not configured (undefined or
    empty) the run aborts and [mintNFTree] is not called at all. *)
Theorem workflow_steps_strict_order (h : Host) (sv : Services) (fs : gmap string string) :
  (exists n, 1 <= n /\ steps_of (events (runWorkflow h sv fs)) = firstn n five_steps)
  /\ (forall e, attestation sv = inl e ->
        steps_of (events (runWorkflow h sv fs)) = [SAttest]
        /\ raised h sv fs e
        /\ files (runWorkflow h sv fs) = fs)
  /\ (forall u e, attestation sv = inr u -> write_fault sv = Some e ->
        steps_of (events (runWorkflow h sv fs)) = [SAttest; SPersist]
        /\ raised h sv fs e)
  /\ (forall u e, attestation sv = inr u -> write_fault sv = None ->
        outcome (upload h sv (uploadToIPFS_module h) fs u) = inl e ->
        steps_of (events (runWorkflow h sv fs)) = [SAttest; SPersist; SUpload]
        /\ raised h sv fs e
        /\ files (runWorkflow h sv fs) !! record_path h = Some (attestation_record u))
  /\ (forall u url, attestation sv = inr u -> write_fault sv = None ->
        outcome (upload h sv (uploadToIPFS_module h) fs u) = inr url ->
        falsy (recipient h) = true ->
        steps_of (events (runWorkflow h sv fs)) = [SAttest; SPersist; SUpload; SRecipient]
        /\ raised h sv fs (mkError MSG_NO_RECIPIENT)
        /\ files (runWorkflow h sv fs) !! record_path h = Some (attestation_record u))
  /\ (forall u url e, attestation sv = inr u -> write_fault sv = None ->
        outcome (upload h sv (uploadToIPFS_module h) fs u) = inr url ->
        falsy (recipient h) = false ->
        minting sv (recipient h) 2 1 url = inl e ->
        steps_of (events (runWorkflow h sv fs)) = five_steps
        /\ mint_calls (events (runWorkflow h sv fs)) = [(recipient h, 2%N, 1%N, url)]
        /\ raised h sv fs e
        /\ files (runWorkflow h sv fs) !! record_path h = Some (attestation_record u))
  /\ (forall u url r, attestation sv = inr u -> write_fault sv = None ->
        outcome (upload h sv (uploadToIPFS_module h) fs u) = inr url ->
        falsy (recipient h) = false ->
        minting sv (recipient h) 2 1 url = inr r ->
        steps_of (events (runWorkflow h sv fs)) = five_steps
        /\ mint_calls (events (runWorkflow h sv fs)) = [(recipient h, 2%N, 1%N, url)]
        /\ completed h sv fs
        /\ files (runWorkflow h sv fs) !! record_path h = Some (attestation_record u))
  /\ (falsy (recipient h) = true ->
        mint_calls (events (runWorkflow h sv fs)) = []
        /\ exists e, raised h sv fs e).
Proof.
  unfold runWorkflow, raised, completed. rewrite main_of_workflow.
  set (m := uploadToIPFS_module h).
  workflow_cases h sv m fs; cbn [events files outcome];
    rewrite ?steps_of_app, ?mint_calls_app;
    try (destruct (upload_steps h sv m fs u) as [Hs0 Hm0]; rewrite ?Hs0, ?Hm0);
    cbn.
  all: repeat split; intros; try congruence; eauto.
  all: try (simplify_eq; apply saved_record).
  all: try (simplify_eq; reflexivity).
  - exists 4. split; [lia | reflexivity].
  - exists 5. split; [lia | reflexivity].
  - exists 5. split; [lia | reflexivity].
Qed.

(** ** The record file *)

(** C3. After a run that completes with attestation UID [u1] the record
    file holds exactly the pretty-printed object with the members [name]
    and [value]; after a second completed run, with UID [u2], it holds
    exactly the record of [u2], whatever it held before. *)
Theorem persisted_record_overwritten (h : Host) (sv1 sv2 : Services)
    (fs : gmap string string) (u1 u2 : string) :
  attestation sv1 = inr u1 -> completed h sv1 fs ->
  attestation sv2 = inr u2 -> completed h sv2 (files (runWorkflow h sv1 fs)) ->
  JSON_stringify_2 (JObject [("name", JString "AttestationUID"); ("value", JString u1)])
    = Some (attestation_record u1)
  /\ files (runWorkflow h sv1 fs) !! record_path h = Some (attestation_record u1)
  /\ files (runWorkflow h sv2 (files (runWorkflow h sv1 fs))) !! record_path h
     = Some (attestation_record u2).
Proof.
  intros Ha1 Hc1 Ha2 Hc2.
  destruct (completed_inv _ _ _ Hc1) as (u1' & Ha1' & Hw1).
  destruct (completed_inv _ _ _ Hc2) as (u2' & Ha2' & Hw2).
  split; [apply stringify_attestationData|].
  rewrite (run_saves_record h sv2 _ u2 Ha2 Hw2).
  rewrite (run_saves_record h sv1 fs u1 Ha1 Hw1).
  split; apply saved_record.
Qed.

(** ** Errors of the workflow *)

(** C4, as amended. When a step raises an error [e], the main function
    reports it on the error console as the last event of the run, the
    success message is not printed, the files are left as the failing
    [try] block left them, and the main function itself returns normally. *)
Theorem error_reported_run_ends_normally (h : Host) (sv : Services)
    (fs : gmap string string) (e : JsError) :
  raised h sv fs e ->
  events (runWorkflow h sv fs)
    = events (workflow h sv (uploadToIPFS_module h) fs) ++ [MAIN_ERROR e]
  /\ files (runWorkflow h sv fs) = files (workflow h sv (uploadToIPFS_module h) fs)
  /\ ~ In (ConsoleLog [AStr "Workflow completed successfully!"])
          (events (runWorkflow h sv fs))
  /\ settle (runWorkflow h sv fs) = Fulfilled.
Proof.
  unfold raised, runWorkflow, settle. rewrite main_of_workflow.
  set (m := uploadToIPFS_module h). intros Hr.
  assert (Hup : forall u, ~ In (ConsoleLog [AStr "Workflow completed successfully!"])
                            (events (upload h sv m fs u))).
  { intros u. unfold upload.
    destruct (falsy (pinataApiKey m) || falsy (pinataSecretApiKey m)) eqn:Hk.
    - rewrite upload_no_keys by assumption. cbn. intros [H|[]]; discriminate H.
    - destruct (saved h fs u !! metadata_path h) as [content|] eqn:Hf.
      + rewrite (upload_pinned _ _ _ _ _ content) by assumption.
        destruct (pinning sv (Some content) _ 0); cbn;
          intros H; repeat (destruct H as [H|H]; [discriminate H|]); exact H.
      + rewrite upload_not_found by assumption. cbn. intros [H|[]]; discriminate H. }
  workflow_cases h sv m fs; cbn in Hr; try discriminate Hr;
    injection Hr as ->; cbn [events files outcome];
    (repeat split; [ ]);
    rewrite ?in_app_iff; cbn; intros H;
    repeat (destruct H as [H|H]; try discriminate H; try (apply (Hup _ H)));
    try contradiction.
Qed.

(** ** The pinning module *)

(** C5. [uploadToIPFS] checks the credentials and the existence of the
    file before it calls the pinning service: without credentials it
    fails with the missing-keys error, for a path that does not exist it
    fails (with the not-found error when the credentials are there), and
    in both cases the pinning service is not called. *)
Theorem upload_guards_before_network (h : Host) (sv : Services) (m : PinataModule)
    (filePath : string) (fs : gmap string string) :
  (falsy (pinataApiKey m) || falsy (pinataSecretApiKey m) = true ->
     outcome (uploadToIPFS h sv m filePath fs) = inl (mkError MSG_NO_KEYS)
     /\ network_calls (events (uploadToIPFS h sv m filePath fs)) = 0)
  /\ (fs !! filePath = None ->
     (exists e, outcome (uploadToIPFS h sv m filePath fs) = inl e)
     /\ network_calls (events (uploadToIPFS h sv m filePath fs)) = 0
     /\ (falsy (pinataApiKey m) || falsy (pinataSecretApiKey m) = false ->
         outcome (uploadToIPFS h sv m filePath fs) = inl (mkError (MSG_NOT_FOUND filePath)))).
Proof.
  split.
  - intros Hk. rewrite upload_no_keys by assumption. split; reflexivity.
  - intros Hf.
    destruct (falsy (pinataApiKey m) || falsy (pinataSecretApiKey m)) eqn:Hk.
    + rewrite upload_no_keys by assumption. cbn. repeat split; eauto. discriminate.
    + rewrite upload_not_found by assumption. cbn. repeat split; eauto.
Qed.

(** C6. With the credentials and the gateway configured, [uploadToIPFS]
    returns for an existing file the gateway base followed directly by
    the content identifier of the pinning service, and the run passes
    this very string to [mintNFTree] as token URI, with the recipient,
    token id 2 and amount 1. *)
Theorem upload_url_is_mint_metadata (h : Host) (sv : Services) (g : string) :
  falsy (env h !! "PINATA_API_KEY") = false ->
  falsy (env h !! "PINATA_API_SECRET") = false ->
  env h !! "PINATA_GATEWAY_URL" = Some g ->
  (forall (filePath : string) (fs : gmap string string) (content cid : string),
      fs !! filePath = Some content ->
      pinning sv (Some content) (path_basename h filePath) 0 = inr cid ->
      outcome (uploadToIPFS h sv (uploadToIPFS_module h) filePath fs) = inr (g +:+ cid))
  /\ (forall (fs : gmap string string) (u content cid r : string),
      attestation sv = inr u -> write_fault sv = None ->
      metadata_path h <> record_path h ->
      fs !! metadata_path h = Some content ->
      pinning sv (Some content) (path_basename h (metadata_path h)) 0 = inr cid ->
      recipient h = Some r -> r <> EmptyString ->
      mint_calls (events (runWorkflow h sv fs)) = [(Some r, 2%N, 1%N, g +:+ cid)]).
Proof.
  intros Hkey Hsec Hg.
  assert (Hk : falsy (pinataApiKey (uploadToIPFS_module h))
               || falsy (pinataSecretApiKey (uploadToIPFS_module h)) = false).
  { cbn. rewrite Hkey, Hsec. reflexivity. }
  assert (Hup : forall filePath fs content cid,
      fs !! filePath = Some content ->
      pinning sv (Some content) (path_basename h filePath) 0 = inr cid ->
      outcome (uploadToIPFS h sv (uploadToIPFS_module h) filePath fs) = inr (g +:+ cid)).
  { intros filePath fs content cid Hf Hp.
    rewrite (upload_pinned _ _ _ _ _ content Hk Hf), Hp. cbn. rewrite Hg. reflexivity. }
  split; [exact Hup|].
  intros fs u content cid r Ha Hw Hne Hf Hp Hr Hr0.
  assert (Hf' : saved h fs u !! metadata_path h = Some content).
  { unfold saved. rewrite lookup_insert_ne by congruence. exact Hf. }
  assert (Hfalsy : falsy (recipient h) = false).
  { rewrite Hr. cbn. apply String.eqb_neq. exact Hr0. }
  pose proof (Hup _ _ _ _ Hf' Hp) as Hu. fold (upload h sv (uploadToIPFS_module h) fs u) in Hu.
  destruct (upload_steps h sv (uploadToIPFS_module h) fs u) as [_ Hm0].
  unfold runWorkflow. rewrite main_of_workflow.
  destruct (minting sv (recipient h) 2 1 (g +:+ cid)) as [e|rc] eqn:Hm.
  - rewrite (workflow_mint_fails h sv _ fs u _ e Ha Hw Hu Hfalsy Hm).
    cbn [events]. rewrite !mint_calls_app, Hm0, Hr. reflexivity.
  - rewrite (workflow_completes h sv _ fs u _ rc Ha Hw Hu Hfalsy Hm).
    cbn [events]. rewrite !mint_calls_app, Hm0, Hr. reflexivity.
Qed.

(** ** Examples *)

(** C2. The gateway URL is not checked: with the two keys configured and
    [PINATA_GATEWAY_URL] left out, the upload succeeds and returns the
    text [undefined] followed by the content identifier, which the run
    then hands to [mintNFTree]. *)
Example missing_gateway_is_not_reported :
  env (sample_host sample_env) !! "PINATA_GATEWAY_URL" = None
  /\ outcome (uploadToIPFS (sample_host sample_env) (sample_services "0xabc")
               (uploadToIPFS_module (sample_host sample_env))
               "/app/metadataNFTree" sample_files)
     = inr "undefinedQm123"
  /\ mint_calls (events (runWorkflow (sample_host sample_env) (sample_services "0xabc")
                           sample_files))
     = [(Some "0xf703e22985579d53284648Ba4C56735d6B746c2d", 2%N, 1%N, "undefinedQm123")].
Proof. vm_compute. repeat split; reflexivity. Qed.

(** C4, the counterexample: the attestation step raises an error, and the
    main function still returns normally; the process exits with code 0. *)
Lemma failed_run_exits_normally :
  raised (sample_host configured_env) failing_attestation sample_files
    (mkError "attest failed")
  /\ settle (runWorkflow (sample_host configured_env) failing_attestation sample_files)
     = Fulfilled
  /\ exitCode (settle (runWorkflow (sample_host configured_env) failing_attestation
                         sample_files)) = 0%N.
Proof. vm_compute. repeat split; reflexivity. Qed.

Lemma error_reported_run_ends_normally_witness :
  events (runWorkflow (sample_host configured_env) failing_attestation sample_files)
  = [ConsoleLog [AStr "Step 1: Creating attestation..."]; CreateAttestationCall;
     MAIN_ERROR (mkError "attest failed")]
  /\ settle (runWorkflow (sample_host configured_env) failing_attestation sample_files)
     = Fulfilled.
Proof.
  destruct (error_reported_run_ends_normally (sample_host configured_env)
              failing_attestation sample_files (mkError "attest failed"))
    as (Hev & _ & _ & Hs).
  - vm_compute. reflexivity.
  - split; [rewrite Hev; vm_compute; reflexivity | exact Hs].
Defined.

Lemma workflow_steps_strict_order_witness :
  (steps_of (events (runWorkflow (sample_host no_recipient_env) (sample_services "0xabc")
                       sample_files))
   = [SAttest; SPersist; SUpload; SRecipient]
   /\ mint_calls (events (runWorkflow (sample_host no_recipient_env)
                            (sample_services "0xabc") sample_files)) = [])
  /\ (steps_of (events (runWorkflow (sample_host configured_env) (sample_services "0xabc")
                          sample_files))
      = [SAttest; SPersist; SUpload; SRecipient; SMint]
      /\ mint_calls (events (runWorkflow (sample_host configured_env)
                               (sample_services "0xabc") sample_files))
         = [(Some "0xf703e22985579d53284648Ba4C56735d6B746c2d", 2%N, 1%N,
             sample_gateway +:+ "Qm123")])
  /\ steps_of (events (runWorkflow (sample_host configured_env) failing_pinning
                         sample_files))
     = [SAttest; SPersist; SUpload].
Proof.
  destruct (workflow_steps_strict_order (sample_host no_recipient_env)
              (sample_services "0xabc") sample_files)
    as (_ & _ & _ & _ & Hrecipient & _ & _ & Hnone).
  destruct (workflow_steps_strict_order (sample_host configured_env)
              (sample_services "0xabc") sample_files)
    as (_ & _ & _ & _ & _ & _ & Hall & _).
  destruct (workflow_steps_strict_order (sample_host configured_env)
              failing_pinning sample_files)
    as (_ & _ & _ & Hupload & _).
  split; [|split].
  - split.
    + apply (Hrecipient "0xabc" (sample_gateway +:+ "Qm123")); vm_compute; reflexivity.
    + apply Hnone. vm_compute. reflexivity.
  - destruct (Hall "0xabc" (sample_gateway +:+ "Qm123") (mkReceipt "receipt"))
      as (Hsteps & Hmint & _); try (vm_compute; reflexivity).
    split; [exact Hsteps | exact Hmint].
  - apply (Hupload "0xabc" (mkError "pin failed")); vm_compute; reflexivity.
Defined.

Lemma persisted_record_overwritten_witness :
  files (runWorkflow (sample_host configured_env) (sample_services "0xdef")
           (files (runWorkflow (sample_host configured_env) (sample_services "0xabc")
                     sample_files)))
    !! record_path (sample_host configured_env)
  = Some (attestation_record "0xdef").
Proof.
  apply (persisted_record_overwritten (sample_host configured_env)
           (sample_services "0xabc") (sample_services "0xdef") sample_files
           "0xabc" "0xdef");
    vm_compute; reflexivity.
Defined.

Lemma upload_guards_before_network_witness :
  outcome (uploadToIPFS (sample_host []) (sample_services "0xabc")
             (uploadToIPFS_module (sample_host [])) "/app/metadataNFTree" sample_files)
    = inl (mkError MSG_NO_KEYS)
  /\ network_calls (events (uploadToIPFS (sample_host configured_env)
                              (sample_services "0xabc")
                              (uploadToIPFS_module (sample_host configured_env))
                              "/app/absent" sample_files)) = 0.
Proof.
  split.
  - apply (upload_guards_before_network (sample_host []) (sample_services "0xabc")
             (uploadToIPFS_module (sample_host [])) "/app/metadataNFTree" sample_files).
    vm_compute. reflexivity.
  - apply (upload_guards_before_network (sample_host configured_env)
             (sample_services "0xabc")
             (uploadToIPFS_module (sample_host configured_env)) "/app/absent" sample_files).
    vm_compute. reflexivity.
Defined.

Lemma upload_url_is_mint_metadata_witness :
  mint_calls (events (runWorkflow (sample_host configured_env) (sample_services "0xabc")
                        sample_files))
  = [(Some "0xf703e22985579d53284648Ba4C56735d6B746c2d", 2%N, 1%N,
      sample_gateway +:+ "Qm123")].
Proof.
  refine (proj2 (upload_url_is_mint_metadata (sample_host configured_env)
                   (sample_services "0xabc") sample_gateway _ _ _)
            sample_files "0xabc" "{}" "Qm123" _ _ _ _ _ _ _ _);
    try (vm_compute; reflexivity); vm_compute; discriminate.
Defined.

(** ** The contract *)

Section ContractProperties.
Context {I : Inherited}.

Lemma nonempty_true (s : string) : nonempty s = true <-> s <> EmptyString.
Proof. destruct s; cbn; split; congruence. Qed.

Lemma nonempty_false (s : string) : nonempty s = false <-> s = EmptyString.
Proof. destruct s; cbn; split; congruence. Qed.

Lemma upd_eq {V} (m : uint256 -> V) k v : upd m k v k = v.
Proof. unfold upd. now rewrite N.eqb_refl. Qed.

Lemma upd_ne {V} (m : uint256 -> V) k k' v : k' <> k -> upd m k v k' = m k'.
Proof. intros Hne. unfold upd. apply N.eqb_neq in Hne. now rewrite Hne. Qed.

(** What a call of [mint] that goes through has checked and done. *)
Lemma mint_Ok sender account id amount ipfsURL s s' :
  mint sender account id amount ipfsURL s = Ok s' ->
  owner (inherited s) = sender /\ ipfsURL <> EmptyString
  /\ exists base', _mint sender account id amount EmptyString (inherited s) = Ok base'
     /\ s' = {| inherited := base';
                _baseURI := _baseURI s;
                _tokenMetadata := upd (_tokenMetadata s) id ipfsURL;
                _metadataHistory :=
                  upd (_metadataHistory s) id (_metadataHistory s id ++ [ipfsURL]) |}.
Proof.
  unfold mint, onlyOwner.
  destruct (N.eqb (owner (inherited s)) sender) eqn:Ho; [|discriminate].
  destruct (nonempty ipfsURL) eqn:Hn; cbn [negb]; [|discriminate].
  destruct (_mint sender account id amount EmptyString (inherited s)) as [base'|] eqn:Hm;
    [|discriminate].
  intros [= <-]. apply N.eqb_eq in Ho. apply nonempty_true in Hn. eauto.
Qed.

(** What a call of [updateTokenMetadata] that goes through has checked and done. *)
Lemma updateTokenMetadata_Ok sender id newIpfsURL s s' :
  updateTokenMetadata sender id newIpfsURL s = Ok s' ->
  owner (inherited s) = sender /\ newIpfsURL <> EmptyString
  /\ _tokenMetadata s id <> EmptyString
  /\ s' = {| inherited := inherited s;
             _baseURI := _baseURI s;
             _tokenMetadata := upd (_tokenMetadata s) id newIpfsURL;
             _metadataHistory :=
               upd (_metadataHistory s) id (_metadataHistory s id ++ [newIpfsURL]) |}.
Proof.
  unfold updateTokenMetadata, onlyOwner.
  destruct (N.eqb (owner (inherited s)) sender) eqn:Ho; [|discriminate].
  destruct (nonempty newIpfsURL) eqn:Hn; cbn [negb]; [|discriminate].
  destruct (nonempty (_tokenMetadata s id)) eqn:Ht; cbn [negb]; [|discriminate].
  intros [= <-]. apply N.eqb_eq in Ho. apply nonempty_true in Hn, Ht. auto.
Qed.

Lemma updateBaseURI_Ok sender newBaseURI s s' :
  updateBaseURI sender newBaseURI s = Ok s' ->
  owner (inherited s) = sender /\ s' = _setBaseURI newBaseURI s.
Proof.
  unfold updateBaseURI, onlyOwner.
  destruct (N.eqb (owner (inherited s)) sender) eqn:Ho; [|discriminate].
  intros [= <-]. apply N.eqb_eq in Ho. auto.
Qed.

(** The effect of any transaction on the pointer of a class: nothing, or
    one non-empty URI pushed on the history and made current. *)
Lemma after_pointer c s id :
  (_tokenMetadata (after c s) id = _tokenMetadata s id
   /\ _metadataHistory (after c s) id = _metadataHistory s id)
  \/ (exists url, url <> EmptyString
      /\ _tokenMetadata (after c s) id = url
      /\ _metadataHistory (after c s) id = _metadataHistory s id ++ [url]).
Proof.
  unfold after. destruct (exec c s) as [s'|e] eqn:He; [|left; auto].
  destruct c as [sender account id' amount url | sender id' url | sender uri' | base'];
    cbn in He.
  - apply mint_Ok in He as (_ & Hu & base' & _ & ->). cbn.
    destruct (N.eq_dec id id') as [->|Hne].
    + right. exists url. rewrite !upd_eq. auto.
    + left. rewrite !upd_ne by assumption. auto.
  - apply updateTokenMetadata_Ok in He as (_ & Hu & _ & ->). cbn.
    destruct (N.eq_dec id id') as [->|Hne].
    + right. exists url. rewrite !upd_eq. auto.
    + left. rewrite !upd_ne by assumption. auto.
  - apply updateBaseURI_Ok in He as (_ & ->). left. auto.
  - injection He as <-. left. auto.
Qed.

Lemma pointer_inv_after c s id : pointer_inv s id -> pointer_inv (after c s) id.
Proof.
  intros [Hl Hf]. unfold pointer_inv.
  destruct (after_pointer c s id) as [[-> ->] | (url & Hu & -> & ->)]; [auto|].
  split; [apply last_last|].
  apply Forall_app. split; [exact Hf|]. constructor; [exact Hu | constructor].
Qed.

Lemma pointer_inv_reachable s id : reachable s -> pointer_inv s id.
Proof.
  induction 1 as [base baseURI | c s _ IH].
  - split; cbn; [reflexivity | constructor].
  - apply pointer_inv_after, IH.
Qed.

Lemma reachable_run cs : forall s, reachable s -> reachable (run cs s).
Proof.
  induction cs as [|c r IH]; intros s Hs; cbn; [exact Hs|].
  apply IH. now constructor.
Qed.

(** A class no transaction of the sequence has minted has no current URI. *)
Lemma unminted_run cs : forall s id,
  minted id cs s = false -> _tokenMetadata s id = EmptyString ->
  _tokenMetadata (run cs s) id = EmptyString.
Proof.
  induction cs as [|c r IH]; intros s id Hm He; cbn in *; [exact He|].
  apply orb_false_iff in Hm as [Hc Hr].
  apply IH; [exact Hr|].
  unfold after, succeeds in *. destruct (exec c s) as [s'|e] eqn:Hx; [|exact He].
  destruct c as [sender account id' amount url | sender id' url | sender uri' | base'];
    cbn in Hx, Hc.
  - apply mint_Ok in Hx as (_ & _ & base' & _ & ->). cbn.
    rewrite andb_true_r in Hc. apply N.eqb_neq in Hc.
    rewrite upd_ne by congruence. exact He.
  - apply updateTokenMetadata_Ok in Hx as (_ & _ & Ht & ->). cbn.
    destruct (N.eq_dec id id') as [->|Hne]; [congruence|].
    rewrite upd_ne by assumption. exact He.
  - apply updateBaseURI_Ok in Hx as (_ & ->). exact He.
  - injection Hx as <-. exact He.
Qed.

Lemma minted_run cs : forall s id,
  (minted id cs s = true \/ _tokenMetadata s id <> EmptyString) ->
  _tokenMetadata (run cs s) id <> EmptyString.
Proof.
  induction cs as [|c r IH]; intros s id Hm; cbn in *.
  - destruct Hm as [Hm|Hm]; [discriminate | exact Hm].
  - apply IH.
    destruct (after_pointer c s id) as [[Ht Hh] | (url & Hu & Ht & Hh)].
    + destruct Hm as [Hm|Hm]; [|right; congruence].
      apply orb_true_iff in Hm as [Hm|Hm]; [|left; exact Hm].
      apply andb_true_iff in Hm as [Hi Hs]. right.
      unfold succeeds, after in *. destruct (exec c s) as [s'|e] eqn:Hx; [|discriminate].
      destruct c; cbn in Hi; try discriminate. apply N.eqb_eq in Hi as ->.
      cbn in Hx. apply mint_Ok in Hx as (_ & Hu & base' & _ & ->). cbn.
      rewrite upd_eq. exact Hu.
    + right. congruence.
Qed.

(** C7. From any state, two calls of [mint] for the same class that go
    through (so sent by the owner, with non-empty URIs [u1] then [u2])
    lengthen the history of the class by exactly two, leave [u2] as the
    current URI and as last entry of the history, and [u1] at the
    position just before it. *)
Theorem mint_twice_history (s s1 s2 : State) (sender1 sender2 account1 account2 : address)
    (id amount1 amount2 : uint256) (u1 u2 : string) :
  mint sender1 account1 id amount1 u1 s = Ok s1 ->
  mint sender2 account2 id amount2 u2 s1 = Ok s2 ->
  length (_metadataHistory s2 id) = length (_metadataHistory s id) + 2
  /\ _metadataHistory s2 id = _metadataHistory s id ++ [u1; u2]
  /\ _tokenMetadata s2 id = u2
  /\ nth_error (_metadataHistory s2 id) (length (_metadataHistory s id)) = Some u1
  /\ nth_error (_metadataHistory s2 id) (S (length (_metadataHistory s id))) = Some u2
  /\ sender1 = owner (inherited s) /\ sender2 = owner (inherited s1)
  /\ u1 <> EmptyString /\ u2 <> EmptyString.
Proof.
  intros H1 H2.
  apply mint_Ok in H1 as (Ho1 & Hu1 & b1 & _ & ->).
  apply mint_Ok in H2 as (Ho2 & Hu2 & b2 & _ & ->).
  cbn [_metadataHistory _tokenMetadata inherited] in *.
  rewrite !upd_eq, <- app_assoc. change ([u1] ++ [u2]) with [u1; u2].
  repeat split; auto.
  - rewrite length_app. reflexivity.
  - rewrite nth_error_app2 by lia. now rewrite Nat.sub_diag.
  - rewrite nth_error_app2 by lia.
    replace (S (length (_metadataHistory s id)) - length (_metadataHistory s id)) with 1 by lia.
    reflexivity.
Qed.

(** C8. In every reachable state and for every class the history ends
    with the current URI; [mint], [updateTokenMetadata] and every other
    transaction preserve this; no transaction shortens a history or takes
    a class back to having no current URI; and once a class has been
    minted its current URI is not empty. *)
Theorem pointer_invariant :
  (forall s id, reachable s -> pointer_inv s id)
  /\ (forall sender account id' amount url s s' id,
        pointer_inv s id -> mint sender account id' amount url s = Ok s' ->
        pointer_inv s' id)
  /\ (forall sender id' url s s' id,
        pointer_inv s id -> updateTokenMetadata sender id' url s = Ok s' ->
        pointer_inv s' id)
  /\ (forall c s id, pointer_inv s id -> pointer_inv (after c s) id)
  /\ (forall c s id, exists more,
        _metadataHistory (after c s) id = _metadataHistory s id ++ more)
  /\ (forall c s id, _tokenMetadata s id <> EmptyString ->
        _tokenMetadata (after c s) id <> EmptyString)
  /\ (forall base baseURI cs id, minted id cs (constructor base baseURI) = true ->
        _tokenMetadata (run cs (constructor base baseURI)) id <> EmptyString
        /\ _metadataHistory (run cs (constructor base baseURI)) id <> []).
Proof.
  split; [intros; now apply pointer_inv_reachable|].
  split.
  { intros sender account id' amount url s s' id Hi Hm.
    replace s' with (after (CallMint sender account id' amount url) s)
      by (unfold after; cbn; now rewrite Hm).
    now apply pointer_inv_after. }
  split.
  { intros sender id' url s s' id Hi Hm.
    replace s' with (after (CallUpdateTokenMetadata sender id' url) s)
      by (unfold after; cbn; now rewrite Hm).
    now apply pointer_inv_after. }
  split; [intros; now apply pointer_inv_after|].
  split.
  { intros c s id.
    destruct (after_pointer c s id) as [[_ ->] | (url & _ & _ & ->)].
    - exists []. now rewrite app_nil_r.
    - now exists [url]. }
  split.
  { intros c s id Hne.
    destruct (after_pointer c s id) as [[-> _] | (url & Hu & -> & _)]; assumption. }
  intros base baseURI cs id Hm.
  assert (Ht : _tokenMetadata (run cs (constructor base baseURI)) id <> EmptyString)
    by (apply minted_run; now left).
  split; [exact Ht|].
  assert (Hr : reachable (run cs (constructor base baseURI)))
    by (apply reachable_run; constructor).
  destruct (pointer_inv_reachable _ id Hr) as [Hl _].
  intros Hnil. rewrite Hnil in Hl. cbn in Hl. congruence.
Qed.

(** C9. On a class that no transaction has minted, [updateTokenMetadata]
    reverts whoever calls it, with the reason "Token ID does not exist"
    when the owner calls it with a non-empty URI, and the storage after
    the call is the storage before it. *)
Theorem update_unminted_reverts (base : Storage) (baseURI : string) (cs : list Call)
    (sender : address) (id : uint256) (newIpfsURL : string) :
  minted id cs (constructor base baseURI) = false ->
  (exists e, updateTokenMetadata sender id newIpfsURL (run cs (constructor base baseURI))
             = Revert e)
  /\ (owner (inherited (run cs (constructor base baseURI))) = sender ->
      newIpfsURL <> EmptyString ->
      updateTokenMetadata sender id newIpfsURL (run cs (constructor base baseURI))
      = Revert (RequireFailed "Token ID does not exist"))
  /\ after (CallUpdateTokenMetadata sender id newIpfsURL) (run cs (constructor base baseURI))
     = run cs (constructor base baseURI).
Proof.
  intros Hm.
  pose proof (unminted_run cs (constructor base baseURI) id Hm eq_refl) as Ht.
  set (s := run cs (constructor base baseURI)) in *.
  assert (Hrev : exists e, updateTokenMetadata sender id newIpfsURL s = Revert e).
  { destruct (updateTokenMetadata sender id newIpfsURL s) as [s'|e] eqn:Hu; [|eauto].
    apply updateTokenMetadata_Ok in Hu as (_ & _ & Hne & _). congruence. }
  split; [exact Hrev|]. split.
  - intros Ho Hu. unfold updateTokenMetadata, onlyOwner.
    apply N.eqb_eq in Ho. apply nonempty_true in Hu. rewrite Ho, Hu, Ht. reflexivity.
  - destruct Hrev as [e He]. unfold after. cbn. now rewrite He.
Qed.

(** C10. [updateBaseURI] changes the base URI and nothing else; [mint]
    and [updateTokenMetadata] for a class leave the base URI and the
    pointer and history of every other class as they were, [mint]
    changing besides only the inherited storage (as [_mint] does) and
    [updateTokenMetadata] not even that. *)
Theorem mutators_frame :
  (forall sender newBaseURI s s',
      updateBaseURI sender newBaseURI s = Ok s' ->
      _baseURI s' = newBaseURI
      /\ _tokenMetadata s' = _tokenMetadata s
      /\ _metadataHistory s' = _metadataHistory s
      /\ inherited s' = inherited s)
  /\ (forall sender account id amount url s s',
      mint sender account id amount url s = Ok s' ->
      _baseURI s' = _baseURI s
      /\ _mint sender account id amount EmptyString (inherited s) = Ok (inherited s')
      /\ forall id', id' <> id ->
           _tokenMetadata s' id' = _tokenMetadata s id'
           /\ _metadataHistory s' id' = _metadataHistory s id')
  /\ (forall sender id url s s',
      updateTokenMetadata sender id url s = Ok s' ->
      _baseURI s' = _baseURI s
      /\ inherited s' = inherited s
      /\ forall id', id' <> id ->
           _tokenMetadata s' id' = _tokenMetadata s id'
           /\ _metadataHistory s' id' = _metadataHistory s id').
Proof.
  split; [|split].
  - intros sender newBaseURI s s' H.
    apply updateBaseURI_Ok in H as (_ & ->). cbn. auto.
  - intros sender account id amount url s s' H.
    apply mint_Ok in H as (_ & _ & b & Hb & ->). cbn.
    repeat split; auto; now rewrite upd_ne.
  - intros sender id url s s' H.
    apply updateTokenMetadata_Ok in H as (_ & _ & _ & ->). cbn.
    repeat split; auto; now rewrite upd_ne.
Qed.

End ContractProperties.

(** *** The contract on examples *)

Lemma mint_twice_history_witness :
  _metadataHistory
    (after (sample_mint "ipfs://b") (after (sample_mint "ipfs://a") sample_contract))
    2%N
  = ["ipfs://a"; "ipfs://b"]
  /\ _tokenMetadata
       (after (sample_mint "ipfs://b")
          (after (sample_mint "ipfs://a") sample_contract)) 2%N
     = "ipfs://b".
Proof.
  destruct (@mint_twice_history OZ sample_contract
              (after (sample_mint "ipfs://a") sample_contract)
              (after (sample_mint "ipfs://b")
                 (after (sample_mint "ipfs://a") sample_contract))
              1%N 1%N 5%N 5%N 2%N 1%N 1%N "ipfs://a" "ipfs://b")
    as (_ & Hh & Ht & _); [reflexivity | reflexivity |].
  split; [exact Hh | exact Ht].
Defined.

Lemma pointer_invariant_witness :
  _tokenMetadata
    (run [sample_mint "ipfs://a"; sample_update "ipfs://b"] sample_contract)
    2%N
  <> EmptyString.
Proof.
  destruct (@pointer_invariant OZ) as (_ & _ & _ & _ & _ & _ & Hminted).
  apply (Hminted sample_base "ipfs://base/"
           [sample_mint "ipfs://a"; sample_update "ipfs://b"] 2%N).
  reflexivity.
Defined.

Lemma update_unminted_reverts_witness :
  @updateTokenMetadata OZ 1%N 3%N "ipfs://c" (run [sample_mint "ipfs://a"] sample_contract)
  = Revert (RequireFailed "Token ID does not exist").
Proof.
  destruct (@update_unminted_reverts OZ sample_base "ipfs://base/"
              [sample_mint "ipfs://a"] 1%N 3%N "ipfs://c")
    as (_ & Hreason & _); [reflexivity|].
  apply Hreason; [reflexivity | discriminate].
Defined.

Lemma mutators_frame_witness :
  (_baseURI (after sample_rebase minted_contract) = "ipfs://other/"
   /\ _tokenMetadata (after sample_rebase minted_contract) 2%N = "ipfs://a"
   /\ _metadataHistory (after sample_rebase minted_contract) 3%N = ["ipfs://c"]
   /\ oz_balances (inherited (after sample_rebase minted_contract)) 3%N 6%N = 4%N)
  /\ (_baseURI (after (sample_mint "ipfs://b") minted_contract) = "ipfs://base/"
      /\ _tokenMetadata (after (sample_mint "ipfs://b") minted_contract) 3%N = "ipfs://c"
      /\ _metadataHistory (after (sample_mint "ipfs://b") minted_contract) 3%N
         = ["ipfs://c"]
      /\ _tokenMetadata (after (sample_mint "ipfs://b") minted_contract) 2%N = "ipfs://b")
  /\ (_baseURI (after (sample_update "ipfs://b") minted_contract) = "ipfs://base/"
      /\ _tokenMetadata (after (sample_update "ipfs://b") minted_contract) 3%N = "ipfs://c"
      /\ _metadataHistory (after (sample_update "ipfs://b") minted_contract) 3%N
         = ["ipfs://c"]
      /\ oz_balances (inherited (after (sample_update "ipfs://b") minted_contract)) 2%N 5%N
         = 1%N).
Proof.
  destruct (@mutators_frame OZ) as (Hbase & Hmint & Hupdate).
  split; [|split].
  - destruct (Hbase 1%N "ipfs://other/" minted_contract
                (after sample_rebase minted_contract))
      as (Hb & Ht & Hh & Hi); [reflexivity|].
    split; [exact Hb|]. split; [rewrite Ht; reflexivity|].
    split; [rewrite Hh; reflexivity | rewrite Hi; reflexivity].
  - destruct (Hmint 1%N 5%N 2%N 1%N "ipfs://b" minted_contract
                (after (sample_mint "ipfs://b") minted_contract))
      as (Hb & _ & Hother); [reflexivity|].
    destruct (Hother 3%N) as (Ht & Hh); [discriminate|].
    split; [rewrite Hb; reflexivity|]. split; [rewrite Ht; reflexivity|].
    split; [rewrite Hh; reflexivity | reflexivity].
  - destruct (Hupdate 1%N 2%N "ipfs://b" minted_contract
                (after (sample_update "ipfs://b") minted_contract))
      as (Hb & Hi & Hother); [reflexivity|].
    destruct (Hother 3%N) as (Ht & Hh); [discriminate|].
    split; [rewrite Hb; reflexivity|]. split; [rewrite Ht; reflexivity|].
    split; [rewrite Hh; reflexivity | rewrite Hi; reflexivity].
Defined.

(** * Further properties *)

(** ** uploadToIPFS.js *)

Lemma keys_present_true m :
  keys_present m = true <-> falsy (pinataApiKey m) || falsy (pinataSecretApiKey m) = false.
Proof. unfold keys_present. destruct (_ || _); cbn; split; congruence. Qed.

Lemma keys_present_false m :
  keys_present m = false <-> falsy (pinataApiKey m) || falsy (pinataSecretApiKey m) = true.
Proof. unfold keys_present. destruct (_ || _); cbn; split; congruence. Qed.

Lemma pin_calls_app (a b : list Event) : pin_calls (a ++ b) = pin_calls a ++ pin_calls b.
Proof.
  induction a as [|e a IH]; cbn; [reflexivity|].
  destruct e; cbn; now rewrite IH.
Qed.

Lemma writes_app (a b : list Event) : writes (a ++ b) = writes a ++ writes b.
Proof.
  induction a as [|e a IH]; cbn; [reflexivity|].
  destruct e; cbn; now rewrite IH.
Qed.

(** Split a call of [uploadToIPFS] into its four possible courses. *)
Ltac upload_cases h sv m filePath fs :=
  let Hk := fresh "Hk" in
  let Hf := fresh "Hf" in
  let Hp := fresh "Hp" in
  let content := fresh "content" in
  destruct (falsy (pinataApiKey m) || falsy (pinataSecretApiKey m)) eqn:Hk;
  [ rewrite (upload_no_keys h sv m filePath fs Hk) in *
  | destruct (fs !! filePath) as [content|] eqn:Hf;
    [ rewrite (upload_pinned h sv m filePath fs content Hk Hf) in *;
      destruct (pinning sv (Some content) (path_basename h filePath) 0) eqn:Hp
    | rewrite (upload_not_found h sv m filePath fs Hk Hf) in * ] ].

Lemma upload_returns_inv h sv m filePath fs url :
  outcome (uploadToIPFS h sv m filePath fs) = inr url ->
  exists content cid,
    fs !! filePath = Some content
    /\ pinning sv (Some content) (path_basename h filePath) 0 = inr cid
    /\ url = plus (gatewayURL m) cid.
Proof.
  upload_cases h sv m filePath fs; cbn; intros H; try discriminate H.
  injection H as <-. eauto.
Qed.

(** X1. [uploadToIPFS] returns a URL exactly when both keys are
    configured, the file exists and the pinning service answers with a
    content identifier; the URL is then the gateway setting followed by
    that identifier. *)
Theorem upload_succeeds_iff (h : Host) (sv : Services) (m : PinataModule)
    (filePath : string) (fs : gmap string string) (url : string) :
  outcome (uploadToIPFS h sv m filePath fs) = inr url
  <-> keys_present m = true
      /\ exists content cid,
           fs !! filePath = Some content
           /\ pinning sv (Some content) (path_basename h filePath) 0 = inr cid
           /\ url = plus (gatewayURL m) cid.
Proof.
  unfold keys_present.
  upload_cases h sv m filePath fs; cbn; split.
  all: try (intros H; discriminate H).
  all: try (intros (H & _); discriminate H).
  all: try (intros (_ & c & cid & H & _); discriminate H).
  - intros (_ & c & cid & Hc & H & _). congruence.
  - intros [= <-]. split; [reflexivity|]. eauto.
  - intros (_ & c & cid & Hc & H & ->). congruence.
Qed.

Lemma upload_pin_calls_present h sv m filePath fs content :
  keys_present m = true -> fs !! filePath = Some content ->
  pin_calls (events (uploadToIPFS h sv m filePath fs))
  = [(Some content, path_basename h filePath, 0%N)].
Proof.
  intros Hk Hf. apply keys_present_true in Hk.
  rewrite (upload_pinned h sv m filePath fs content Hk Hf).
  destruct (pinning sv (Some content) (path_basename h filePath) 0); reflexivity.
Qed.

(** X2. The calls [uploadToIPFS] makes to the pinning service: exactly
    one, with the content of the file, the base name of the path and CID
    version 0, when both keys are configured and the file exists; none
    otherwise. *)
Theorem upload_network_calls (h : Host) (sv : Services) (m : PinataModule)
    (filePath : string) (fs : gmap string string) :
  pin_calls (events (uploadToIPFS h sv m filePath fs))
  = match fs !! filePath with
    | Some content =>
        if keys_present m then [(Some content, path_basename h filePath, 0%N)] else []
    | None => []
    end.
Proof.
  unfold keys_present.
  upload_cases h sv m filePath fs; cbn; try reflexivity.
  destruct (fs !! filePath); reflexivity.
Qed.

Lemma upload_failure_logged_aux h sv m filePath fs e :
  outcome (uploadToIPFS h sv m filePath fs) = inl e ->
  (events (uploadToIPFS h sv m filePath fs) = [UPLOAD_ERROR e]
   /\ (e = mkError MSG_NO_KEYS \/ e = mkError (MSG_NOT_FOUND filePath)))
  \/ exists content,
       fs !! filePath = Some content
       /\ pinning sv (Some content) (path_basename h filePath) 0 = inl e
       /\ events (uploadToIPFS h sv m filePath fs)
          = [PinFileToIPFS (Some content) (path_basename h filePath) 0; UPLOAD_ERROR e].
Proof.
  upload_cases h sv m filePath fs; cbn; intros H; try discriminate H;
    injection H as <-; eauto.
Qed.

(** X3. When [uploadToIPFS] fails it leaves the files alone and its last
    event is the error it throws, written to the error console; the
    error is one of its two guards' or, after the one network call, the
    very error of the pinning service. *)
Theorem upload_failure_logged (h : Host) (sv : Services) (m : PinataModule)
    (filePath : string) (fs : gmap string string) (e : JsError) :
  outcome (uploadToIPFS h sv m filePath fs) = inl e ->
  files (uploadToIPFS h sv m filePath fs) = fs
  /\ ((events (uploadToIPFS h sv m filePath fs) = [UPLOAD_ERROR e]
       /\ (e = mkError MSG_NO_KEYS \/ e = mkError (MSG_NOT_FOUND filePath)))
      \/ exists content,
           fs !! filePath = Some content
           /\ pinning sv (Some content) (path_basename h filePath) 0 = inl e
           /\ events (uploadToIPFS h sv m filePath fs)
              = [PinFileToIPFS (Some content) (path_basename h filePath) 0; UPLOAD_ERROR e]).
Proof.
  upload_cases h sv m filePath fs; cbn; intros H; try discriminate H;
    injection H as <-; (split; [reflexivity|]); eauto.
Qed.

(** [uploadToIPFS] looks at the files only through the file it uploads,
    and at the services only through the pinning service. *)
Lemma upload_congruence h sv1 sv2 m filePath fs1 fs2 :
  pinning sv1 = pinning sv2 -> fs1 !! filePath = fs2 !! filePath ->
  outcome (uploadToIPFS h sv1 m filePath fs1) = outcome (uploadToIPFS h sv2 m filePath fs2)
  /\ events (uploadToIPFS h sv1 m filePath fs1) = events (uploadToIPFS h sv2 m filePath fs2).
Proof.
  intros Hp Hf.
  destruct (falsy (pinataApiKey m) || falsy (pinataSecretApiKey m)) eqn:Hk.
  - rewrite !upload_no_keys by assumption. auto.
  - destruct (fs2 !! filePath) as [content|] eqn:Hf2.
    + rewrite (upload_pinned h sv1 m filePath fs1 content Hk Hf),
        (upload_pinned h sv2 m filePath fs2 content Hk Hf2), Hp.
      destruct (pinning sv2 (Some content) (path_basename h filePath) 0); auto.
    + rewrite !upload_not_found by assumption. auto.
Qed.

Lemma upload_files h sv m filePath fs : files (uploadToIPFS h sv m filePath fs) = fs.
Proof. apply upload_frame. Qed.

Lemma upload_writes h sv m filePath fs : writes (events (uploadToIPFS h sv m filePath fs)) = [].
Proof. upload_cases h sv m filePath fs; reflexivity. Qed.

(** X4. The example [main] of [uploadToIPFS.js] never overwrites the file
    to upload: when the file exists, nothing is written and the files
    are left as they were, and an upload error is only logged, the
    function returning [undefined]. *)
Theorem upload_main_keeps_existing_file (h : Host) (sv : Services) (m : PinataModule)
    (fs : gmap string string) (content : string) :
  fs !! metadata_path h = Some content ->
  files (UploadScript.main h sv m fs) = fs
  /\ writes (events (UploadScript.main h sv m fs)) = []
  /\ outcome (UploadScript.main h sv m fs)
     = inr match outcome (uploadToIPFS h sv m (metadata_path h) fs) with
           | inl _ => None
           | inr url => Some url
           end.
Proof.
  intros Hf.
  pose proof (upload_files h sv m (metadata_path h) fs) as Hfiles.
  pose proof (upload_writes h sv m (metadata_path h) fs) as Hw.
  unfold UploadScript.main. fold (metadata_path h).
  destruct (uploadToIPFS h sv m (metadata_path h) fs) as [[e|url] f ev] eqn:Hup;
    cbn in Hfiles, Hw; subst f;
    unfold existsSync, console_log, console_error, emit, try_catch, bind, ret;
    js_eval; rewrite ?writes_app, ?Hw; auto.
Qed.

(** X5. When the file to upload is missing and the write goes through,
    [main] of [uploadToIPFS.js] creates it with the sample text before
    the upload, so that with both keys configured the pinning service is
    called once, with that text; [main] then returns normally whatever
    the service answers. *)
Theorem upload_main_creates_missing_file (h : Host) (sv : Services) (m : PinataModule)
    (fs : gmap string string) :
  fs !! metadata_path h = None -> write_fault sv = None ->
  files (UploadScript.main h sv m fs) = <[metadata_path h := UploadScript.SAMPLE_TEXT]> fs
  /\ writes (events (UploadScript.main h sv m fs))
     = [(metadata_path h, UploadScript.SAMPLE_TEXT)]
  /\ (keys_present m = true ->
      pin_calls (events (UploadScript.main h sv m fs))
      = [(Some UploadScript.SAMPLE_TEXT, path_basename h (metadata_path h), 0%N)])
  /\ exists v, outcome (UploadScript.main h sv m fs) = inr v.
Proof.
  intros Hf Hwf.
  set (fs' := <[metadata_path h := UploadScript.SAMPLE_TEXT]> fs).
  assert (Hf' : fs' !! metadata_path h = Some UploadScript.SAMPLE_TEXT)
    by apply lookup_insert_eq.
  pose proof (upload_files h sv m (metadata_path h) fs') as Hfiles.
  pose proof (upload_writes h sv m (metadata_path h) fs') as Hw.
  pose proof (fun Hk => upload_pin_calls_present h sv m (metadata_path h) fs' _ Hk Hf')
    as Hp.
  unfold UploadScript.main. fold (metadata_path h).
  destruct (uploadToIPFS h sv m (metadata_path h) fs') as [[e|url] f ev] eqn:Hup;
    cbn in Hfiles, Hw, Hp; subst f; unfold fs' in *;
    unfold writeFileSync, existsSync, console_log, console_error, emit, try_catch, bind, ret;
    js_eval; rewrite ?writes_app, ?pin_calls_app, ?Hw; cbn;
    (repeat split; eauto); intros Hk; rewrite ?app_nil_r; exact (Hp Hk).
Qed.

(** ** index.js *)

Lemma upload_pin_calls_le h sv m filePath fs :
  length (pin_calls (events (uploadToIPFS h sv m filePath fs))) <= 1.
Proof.
  upload_cases h sv m filePath fs; cbn; lia.
Qed.

Lemma upload_no_success_log h sv m filePath fs :
  ~ In SUCCESS_LOG (events (uploadToIPFS h sv m filePath fs)).
Proof.
  upload_cases h sv m filePath fs; cbn; intros H;
    repeat (destruct H as [H|H]; [discriminate H|]); exact H.
Qed.

(** X6. A run of the workflow changes no file but the record file. *)
Theorem workflow_touches_only_record (h : Host) (sv : Services)
    (fs : gmap string string) (path : string) :
  path <> record_path h ->
  files (runWorkflow h sv fs) !! path = fs !! path.
Proof.
  intros Hne. unfold runWorkflow. rewrite main_of_workflow.
  workflow_cases h sv (uploadToIPFS_module h) fs; cbn [files];
    try reflexivity; unfold saved; now rewrite lookup_insert_ne.
Qed.

(** X7. Nothing is retried: a run writes the record file at most once,
    calls the pinning service at most once and calls [mintNFTree] at
    most once. *)
Theorem workflow_never_retries (h : Host) (sv : Services) (fs : gmap string string) :
  length (writes (events (runWorkflow h sv fs))) <= 1
  /\ length (pin_calls (events (runWorkflow h sv fs))) <= 1
  /\ length (mint_calls (events (runWorkflow h sv fs))) <= 1.
Proof.
  unfold runWorkflow. rewrite main_of_workflow.
  set (m := uploadToIPFS_module h).
  workflow_cases h sv m fs; cbn [events];
    rewrite ?writes_app, ?pin_calls_app, ?mint_calls_app, ?length_app;
    try (unfold upload;
         pose proof (upload_pin_calls_le h sv m (metadata_path h) (saved h fs u)) as Hpin;
         pose proof (upload_writes h sv m (metadata_path h) (saved h fs u)) as Hwr;
         destruct (upload_frame h sv m (metadata_path h) (saved h fs u)) as (_ & _ & Hmc);
         rewrite ?Hwr, ?Hmc;
         revert Hpin;
         generalize (length (pin_calls (events (uploadToIPFS h sv m (metadata_path h)
                                                   (saved h fs u)))));
         intros n Hpin);
    cbn; lia.
Qed.

(** X8. Whenever [mintNFTree] is called, the attestation was created,
    the record was written, the pinning service gave a content
    identifier for the uploaded file, the recipient is configured, and
    the call is for the recipient, token id 2, amount 1 and the gateway
    setting followed by that identifier. *)
Theorem mint_call_provenance (h : Host) (sv : Services) (fs : gmap string string)
    (call : option string * N * N * string) :
  In call (mint_calls (events (runWorkflow h sv fs))) ->
  exists u content cid,
    attestation sv = inr u /\ write_fault sv = None
    /\ saved h fs u !! metadata_path h = Some content
    /\ pinning sv (Some content) (path_basename h (metadata_path h)) 0 = inr cid
    /\ falsy (recipient h) = false
    /\ call = (recipient h, 2%N, 1%N, plus (env h !! "PINATA_GATEWAY_URL") cid).
Proof.
  unfold runWorkflow. rewrite main_of_workflow.
  set (m := uploadToIPFS_module h).
  workflow_cases h sv m fs; cbn [events];
    rewrite ?mint_calls_app;
    try (destruct (upload_steps h sv m fs u) as [_ Hm0]; rewrite ?Hm0);
    cbn; intros Hin; try contradiction.
  all: destruct Hin as [<-|[]].
  all: apply upload_returns_inv in Hu as (content & cid & Hf & Hp & ->).
  all: exists u, content, cid; auto 10.
Qed.

(** X9. The attestation UID reaches neither the pinning service nor the
    minting call: two runs that differ only in the UID the attestation
    step returns make the same calls of the pinning service and of
    [mintNFTree] (the uploaded file not being the record file). *)
Theorem token_independent_of_uid (h : Host) (sv : Services) (fs : gmap string string)
    (u1 u2 : string) :
  metadata_path h <> record_path h ->
  pin_calls (events (runWorkflow h (with_attestation sv (inr u1)) fs))
  = pin_calls (events (runWorkflow h (with_attestation sv (inr u2)) fs))
  /\ mint_calls (events (runWorkflow h (with_attestation sv (inr u1)) fs))
     = mint_calls (events (runWorkflow h (with_attestation sv (inr u2)) fs)).
Proof.
  intros Hne.
  set (sv1 := with_attestation sv (inr u1)). set (sv2 := with_attestation sv (inr u2)).
  set (m := uploadToIPFS_module h).
  assert (Ha1 : attestation sv1 = inr u1) by reflexivity.
  assert (Ha2 : attestation sv2 = inr u2) by reflexivity.
  unfold runWorkflow. rewrite !main_of_workflow. fold m.
  destruct (write_fault sv) as [e|] eqn:Hw.
  { rewrite (workflow_write_fails h sv1 m fs u1 e Ha1 Hw),
      (workflow_write_fails h sv2 m fs u2 e Ha2 Hw). split; reflexivity. }
  destruct (upload_congruence h sv1 sv2 m (metadata_path h) (saved h fs u1) (saved h fs u2))
    as [Ho He]; [reflexivity | unfold saved; now rewrite !lookup_insert_ne by congruence |].
  fold (upload h sv1 m fs u1) in Ho, He. fold (upload h sv2 m fs u2) in Ho, He.
  destruct (outcome (upload h sv2 m fs u2)) as [e|url] eqn:Hu2.
  { rewrite (workflow_upload_fails h sv1 m fs u1 e Ha1 Hw Ho),
      (workflow_upload_fails h sv2 m fs u2 e Ha2 Hw Hu2).
    cbn [events]. rewrite !pin_calls_app, !mint_calls_app, He. split; reflexivity. }
  destruct (falsy (recipient h)) eqn:Hr.
  { rewrite (workflow_no_recipient h sv1 m fs u1 url Ha1 Hw Ho Hr),
      (workflow_no_recipient h sv2 m fs u2 url Ha2 Hw Hu2 Hr).
    cbn [events]. rewrite !pin_calls_app, !mint_calls_app, He. split; reflexivity. }
  destruct (minting sv (recipient h) 2 1 url) as [e|r] eqn:Hm.
  - rewrite (workflow_mint_fails h sv1 m fs u1 url e Ha1 Hw Ho Hr Hm),
      (workflow_mint_fails h sv2 m fs u2 url e Ha2 Hw Hu2 Hr Hm).
    cbn [events]. rewrite !pin_calls_app, !mint_calls_app, He. split; reflexivity.
  - rewrite (workflow_completes h sv1 m fs u1 url r Ha1 Hw Ho Hr Hm),
      (workflow_completes h sv2 m fs u2 url r Ha2 Hw Hu2 Hr Hm).
    cbn [events]. rewrite !pin_calls_app, !mint_calls_app, He. split; reflexivity.
Qed.

(** X10. The success message is printed exactly by the runs whose [try]
    block ran to its end, that is when every one of the five steps
    succeeded; it is then the last event, and no error is reported. *)
Theorem success_message_iff_completed (h : Host) (sv : Services) (fs : gmap string string) :
  (In SUCCESS_LOG (events (runWorkflow h sv fs)) <-> completed h sv fs)
  /\ (completed h sv fs <->
      exists u url r,
        attestation sv = inr u /\ write_fault sv = None
        /\ outcome (upload h sv (uploadToIPFS_module h) fs u) = inr url
        /\ falsy (recipient h) = false
        /\ minting sv (recipient h) 2 1 url = inr r)
  /\ (completed h sv fs ->
      List.last (events (runWorkflow h sv fs)) SUCCESS_LOG = SUCCESS_LOG
      /\ forall e, ~ In (MAIN_ERROR e) (events (runWorkflow h sv fs))).
Proof.
  unfold completed, runWorkflow. rewrite main_of_workflow.
  set (m := uploadToIPFS_module h).
  assert (Hup : forall u, ~ In SUCCESS_LOG (events (upload h sv m fs u)))
    by (intros u; apply upload_no_success_log).
  assert (Hup' : forall u e, ~ In (MAIN_ERROR e) (events (upload h sv m fs u))).
  { intros u e. unfold upload.
    upload_cases h sv m (metadata_path h) (saved h fs u); cbn; intros H;
      repeat (destruct H as [H|H]; [discriminate H|]); exact H. }
  workflow_cases h sv m fs; cbn [events outcome].
  1-5: split; [|split].
  1,4,7,10,13: split; [|intros H; discriminate H];
    rewrite ?in_app_iff; cbn; intros H;
    repeat (destruct H as [H|H]; try discriminate H; try (now apply Hup in H));
    contradiction.
  1,3,5,7,9: split; [intros H; discriminate H|];
    intros (u' & url' & r' & H1 & H2 & H3 & H4 & H5); congruence.
  1-5: intros H; discriminate H.
  split; [|split].
  - split; [reflexivity|]. intros _. rewrite !in_app_iff. cbn. auto 10.
  - split; [|reflexivity]. intros _. exists u, url, r. auto.
  - intros _. split.
    + rewrite !app_assoc.
      match goal with
      | |- List.last (?p ++ [?a; ?b; ?c]) _ = _ =>
          change (p ++ [a; b; c]) with (p ++ ([a; b] ++ [c]));
          rewrite (app_assoc p); apply last_last
      end.
    + intros e. rewrite !in_app_iff. cbn. intros H.
      repeat (destruct H as [H|H]; try discriminate H; try (now apply Hup' in H));
        contradiction.
Qed.

(** X11. An error of the upload step is reported twice, by
    [uploadToIPFS] and then by the main function, as the last two events
    of the run; no token is minted. *)
Theorem upload_error_reported_twice (h : Host) (sv : Services) (fs : gmap string string)
    (u : string) (e : JsError) :
  attestation sv = inr u -> write_fault sv = None ->
  outcome (upload h sv (uploadToIPFS_module h) fs u) = inl e ->
  (exists before, events (runWorkflow h sv fs) = before ++ [UPLOAD_ERROR e; MAIN_ERROR e])
  /\ mint_calls (events (runWorkflow h sv fs)) = [].
Proof.
  intros Ha Hw Hu. unfold runWorkflow. rewrite main_of_workflow.
  rewrite (workflow_upload_fails h sv _ fs u e Ha Hw Hu). cbn [events].
  destruct (upload_steps h sv (uploadToIPFS_module h) fs u) as [_ Hm].
  split; [|rewrite !mint_calls_app, Hm; reflexivity].
  unfold upload in *.
  destruct (upload_failure_logged_aux h sv (uploadToIPFS_module h) (metadata_path h)
              (saved h fs u) e Hu) as [[-> _] | (content & _ & _ & ->)].
  - exists (events_to_upload h u). now rewrite <- app_assoc.
  - exists (events_to_upload h u
            ++ [PinFileToIPFS (Some content) (path_basename h (metadata_path h)) 0]).
    now rewrite <- !app_assoc.
Qed.

(** ** JSON.stringify *)

Lemma unquoteChar_quoteChar (c : ascii) (r : string) :
  unquoteChar (quoteChar c +:+ r) = Some (c, r).
Proof.
  destruct c as [[] [] [] [] [] [] [] []]; reflexivity.
Qed.

Lemma quoteChar_plain (c : ascii) : plainChar c = true -> quoteChar c = String c EmptyString.
Proof.
  destruct c as [[] [] [] [] [] [] [] []]; intros H; try discriminate H; reflexivity.
Qed.

(** Two quoted texts followed by the same closing part are equal only
    for equal texts, the closing part not starting like a quoted
    character. *)
Lemma quoteBody_inj_before (closing : string) :
  unquoteChar closing = None ->
  forall s1 s2, quoteBody s1 +:+ closing = quoteBody s2 +:+ closing -> s1 = s2.
Proof.
  intros Hc. induction s1 as [|c1 r1 IH]; intros [|c2 r2] H; cbn [quoteBody] in H.
  - reflexivity.
  - change (EmptyString +:+ closing) with closing in H.
    rewrite append_assoc in H. rewrite H, unquoteChar_quoteChar in Hc. discriminate Hc.
  - change (EmptyString +:+ closing) with closing in H.
    rewrite append_assoc in H. rewrite <- H, unquoteChar_quoteChar in Hc. discriminate Hc.
  - rewrite !append_assoc in H.
    apply (f_equal unquoteChar) in H. rewrite !unquoteChar_quoteChar in H.
    injection H as -> H. f_equal. now apply IH.
Qed.

(** X12. A text without control characters, double quotes and
    backslashes is quoted as it is; the record of such a UID (a
    hexadecimal UID for one) is the UID between double quotes in the
    two-member object. *)
Theorem plain_uid_written_verbatim (u : string) :
  plain u = true ->
  QuoteJSONString u = DQUOTE +:+ u +:+ DQUOTE
  /\ attestation_record u
     = "{" +:+ LF +:+
       "  " +:+ DQUOTE +:+ "name" +:+ DQUOTE +:+ ": " +:+ DQUOTE +:+ "AttestationUID"
            +:+ DQUOTE +:+ "," +:+ LF +:+
       "  " +:+ DQUOTE +:+ "value" +:+ DQUOTE +:+ ": " +:+ DQUOTE +:+ u +:+ DQUOTE +:+ LF +:+
       "}".
Proof.
  intros Hp.
  assert (Hq : quoteBody u = u).
  { induction u as [|c r IH]; [reflexivity|].
    cbn [plain] in Hp. apply andb_true_iff in Hp as [Hc Hr].
    cbn [quoteBody]. rewrite (quoteChar_plain c Hc), (IH Hr). reflexivity. }
  unfold attestation_record, QuoteJSONString. rewrite Hq, !append_assoc. split; reflexivity.
Qed.

(** X13. The record file determines the UID: two UIDs with the same
    record are equal, whatever characters they hold. *)
Theorem attestation_record_inj (u1 u2 : string) :
  attestation_record u1 = attestation_record u2 -> u1 = u2.
Proof.
  unfold attestation_record, QuoteJSONString. intros H.
  repeat (apply String.app_inj in H).
  rewrite !append_assoc in H. apply String.app_inj in H.
  apply (quoteBody_inj_before (DQUOTE +:+ LF +:+ "}")) in H; [exact H | reflexivity].
Qed.

(** ** The contract, further *)

Section ContractFurther.
Context {I : Inherited}.

Lemma last_cons {A} (x d : A) (l : list A) : List.last (x :: l) d = List.last l x.
Proof.
  revert x d. induction l as [|y l IH]; intros x d; [reflexivity|].
  change (List.last (y :: l) d = List.last (y :: l) x). now rewrite !IH.
Qed.

Lemma succeeds_true c s : succeeds c s = true <-> exists s', exec c s = Ok s'.
Proof.
  unfold succeeds. destruct (exec c s) as [s'|e]; split; eauto; try discriminate.
  intros [s' H]. discriminate H.
Qed.

(** X14. Only the owner gets through: a call of [mint],
    [updateTokenMetadata] or [updateBaseURI] by any other sender reverts
    with the unauthorized-account error whatever its arguments, and
    leaves the storage as it was. *)
Theorem not_owner_reverts (c : Call) (sender : address) (s : State) :
  mutator_sender c = Some sender ->
  sender <> owner (inherited s) ->
  exec c s = Revert (OwnableUnauthorizedAccount sender) /\ after c s = s.
Proof.
  intros Hc Hne.
  assert (He : exec c s = Revert (OwnableUnauthorizedAccount sender)).
  { assert (Hb : N.eqb (owner (inherited s)) sender = false)
      by (apply N.eqb_neq; congruence).
    destruct c; cbn in Hc; try discriminate Hc; injection Hc as ->; cbn;
      unfold mint, updateTokenMetadata, updateBaseURI, onlyOwner; now rewrite Hb. }
  split; [exact He|]. unfold after. now rewrite He.
Qed.

(** X15. An empty URI is refused before anything else is looked at: for
    the owner, [mint] with an empty URI reverts with "IPFS URL cannot be
    empty" whatever the inherited [_mint] would do, and so does
    [updateTokenMetadata], whether the class exists or not. *)
Theorem empty_url_reverts (sender account : address) (id amount : uint256) (s : State) :
  owner (inherited s) = sender ->
  mint sender account id amount EmptyString s
    = Revert (RequireFailed "IPFS URL cannot be empty")
  /\ updateTokenMetadata sender id EmptyString s
     = Revert (RequireFailed "IPFS URL cannot be empty").
Proof.
  intros Ho. apply N.eqb_eq in Ho.
  unfold mint, updateTokenMetadata, onlyOwner. rewrite Ho. split; reflexivity.
Qed.

Lemma updateTokenMetadata_succeeds sender id url s :
  (exists s', updateTokenMetadata sender id url s = Ok s')
  <-> owner (inherited s) = sender /\ url <> EmptyString
      /\ _tokenMetadata s id <> EmptyString.
Proof.
  split.
  - intros [s' H]. apply updateTokenMetadata_Ok in H as (Ho & Hu & Ht & _). auto.
  - intros (Ho & Hu & Ht). apply N.eqb_eq in Ho. apply nonempty_true in Hu, Ht.
    unfold updateTokenMetadata, onlyOwner. rewrite Ho, Hu, Ht. cbn. eauto.
Qed.

Lemma current_iff_minted base baseURI cs id :
  _tokenMetadata (run cs (constructor base baseURI)) id <> EmptyString
  <-> minted id cs (constructor base baseURI) = true.
Proof.
  split.
  - intros Hne. destruct (minted id cs (constructor base baseURI)) eqn:Hm; [reflexivity|].
    exfalso. apply Hne. now apply unminted_run.
  - intros Hm. apply minted_run. now left.
Qed.

(** X16. After any transactions, [updateTokenMetadata] goes through
    exactly when the owner calls it with a non-empty URI for a class that
    some earlier transaction has minted; it needs nothing of the
    inherited token code. *)
Theorem update_succeeds_iff_minted (base : Storage) (baseURI : string) (cs : list Call)
    (sender : address) (id : uint256) (url : string) :
  (exists s', updateTokenMetadata sender id url (run cs (constructor base baseURI)) = Ok s')
  <-> owner (inherited (run cs (constructor base baseURI))) = sender
      /\ url <> EmptyString
      /\ minted id cs (constructor base baseURI) = true.
Proof.
  rewrite updateTokenMetadata_succeeds, current_iff_minted. reflexivity.
Qed.

(** X17. The two read functions agree in every reachable state:
    [getTokenMetadata] returns [u] exactly when [getMetadataHistory]
    returns a history whose last entry is [u], and one reverts exactly
    when the other does. *)
Theorem views_agree (s : State) (id : uint256) :
  reachable s ->
  (forall u, getTokenMetadata id s = Ok u
             <-> exists older, getMetadataHistory id s = Ok (older ++ [u]))
  /\ (getTokenMetadata id s = Revert (RequireFailed "Token ID does not exist")
      <-> getMetadataHistory id s = Revert (RequireFailed "No history for this token ID")).
Proof.
  intros Hr. destruct (pointer_inv_reachable s id Hr) as [Hl Hf].
  unfold getTokenMetadata, getMetadataHistory.
  destruct (_metadataHistory s id) as [|x0 l0] eqn:Hh.
  - cbn in Hl. rewrite <- Hl. cbn. split.
    + intros u. split; [intros H; discriminate H|].
      intros [older H]. discriminate H.
    + split; reflexivity.
  - destruct (@exists_last _ (x0 :: l0)) as (l & x & Hx0); [discriminate|].
    rewrite Hx0 in *. clear Hx0.
    rewrite last_last in Hl. apply Forall_app in Hf as [_ Hx].
    apply Forall_inv in Hx as Hne.
    apply nonempty_true in Hne. rewrite <- Hl, Hne, length_app. cbn [length].
    rewrite Nat.add_1_r. cbn. split.
    + intros u. split.
      * intros [= <-]. now exists l.
      * intros [older H]. injection H as H. apply app_inj_tail in H as [_ ->]. reflexivity.
    + split; intros H; discriminate H.
Qed.

(** X18. What is written is what is read: after a [mint] or an
    [updateTokenMetadata] of a class that goes through, [getTokenMetadata]
    returns the URI just given and [getMetadataHistory] returns the
    earlier history followed by it. *)
Theorem read_after_write (c : Call) (s s' : State) (id : uint256) (url : string) :
  exec c s = Ok s' ->
  (exists sender account amount, c = CallMint sender account id amount url)
  \/ (exists sender, c = CallUpdateTokenMetadata sender id url) ->
  getTokenMetadata id s' = Ok url
  /\ getMetadataHistory id s' = Ok (_metadataHistory s id ++ [url]).
Proof.
  intros He Hc.
  assert (Hs : url <> EmptyString /\ _tokenMetadata s' id = url
               /\ _metadataHistory s' id = _metadataHistory s id ++ [url]).
  { destruct Hc as [(sender & account & amount & ->) | (sender & ->)]; cbn in He.
    - apply mint_Ok in He as (_ & Hu & b & _ & ->). cbn. now rewrite !upd_eq.
    - apply updateTokenMetadata_Ok in He as (_ & Hu & _ & ->). cbn. now rewrite !upd_eq. }
  destruct Hs as (Hu & Ht & Hh). apply nonempty_true in Hu.
  unfold getTokenMetadata, getMetadataHistory. rewrite Ht, Hh, Hu, length_app.
  cbn [length]. rewrite Nat.add_1_r. split; reflexivity.
Qed.

Lemma after_pushes c s id :
  _metadataHistory (after c s) id = _metadataHistory s id ++ pushes id c s
  /\ _tokenMetadata (after c s) id = List.last (pushes id c s) (_tokenMetadata s id).
Proof.
  unfold pushes, after, succeeds.
  destruct c as [sender account id' amount url | sender id' url | sender uri' | base'];
    cbn [exec].
  - destruct (mint sender account id' amount url s) as [s'|e] eqn:He.
    + apply mint_Ok in He as (_ & _ & b & _ & ->). cbn.
      destruct (N.eqb id' id) eqn:Hid; cbn.
      * apply N.eqb_eq in Hid as ->. now rewrite !upd_eq.
      * apply N.eqb_neq in Hid. rewrite !upd_ne, app_nil_r by congruence. auto.
    + rewrite andb_false_r, app_nil_r. auto.
  - destruct (updateTokenMetadata sender id' url s) as [s'|e] eqn:He.
    + apply updateTokenMetadata_Ok in He as (_ & _ & _ & ->). cbn.
      destruct (N.eqb id' id) eqn:Hid; cbn.
      * apply N.eqb_eq in Hid as ->. now rewrite !upd_eq.
      * apply N.eqb_neq in Hid. rewrite !upd_ne, app_nil_r by congruence. auto.
    + rewrite andb_false_r, app_nil_r. auto.
  - destruct (updateBaseURI sender uri' s) as [s'|e] eqn:He.
    + apply updateBaseURI_Ok in He as (_ & ->). cbn. rewrite app_nil_r. auto.
    + rewrite app_nil_r. auto.
  - cbn. rewrite app_nil_r. auto.
Qed.

Lemma last_app_default {A} (l1 l2 : list A) (d : A) :
  List.last (l1 ++ l2) d = List.last l2 (List.last l1 d).
Proof.
  revert d. induction l1 as [|x l1 IH]; intros d; [reflexivity|].
  change ((x :: l1) ++ l2) with (x :: (l1 ++ l2)). now rewrite !last_cons, IH.
Qed.

(** X19. The history of a class is the log of its successful writes:
    after any transactions it is the history before them followed by the
    URIs of the mints and metadata updates of that class that went
    through, in order, and the current URI is the last of them; from the
    constructor on, the history is exactly that log. *)
Theorem history_is_log (cs : list Call) (s : State) (id : uint256) :
  _metadataHistory (run cs s) id = _metadataHistory s id ++ pushed id cs s
  /\ _tokenMetadata (run cs s) id = List.last (pushed id cs s) (_tokenMetadata s id)
  /\ (forall base baseURI, s = constructor base baseURI ->
      _metadataHistory (run cs s) id = pushed id cs s).
Proof.
  assert (H : forall cs s,
    _metadataHistory (run cs s) id = _metadataHistory s id ++ pushed id cs s
    /\ _tokenMetadata (run cs s) id = List.last (pushed id cs s) (_tokenMetadata s id)).
  { clear cs s. induction cs as [|c r IH]; intros s; cbn [run pushed].
    - rewrite app_nil_r. auto.
    - destruct (IH (after c s)) as [Hh Ht]. destruct (after_pushes c s id) as [Hh1 Ht1].
      rewrite Hh, Ht, Hh1, Ht1, app_assoc, last_app_default. auto. }
  destruct (H cs s) as [Hh Ht]. repeat split; auto.
  intros base baseURI ->. rewrite Hh. reflexivity.
Qed.

(** X20. A metadata update right after a mint cannot fail for the class:
    when [mint] has gone through, [updateTokenMetadata] of the same class
    by the owner with a non-empty URI goes through, puts both URIs at the
    end of the history in order, and leaves the inherited storage (the
    balances) as the mint left it. *)
Theorem mint_then_update (s s1 : State) (sender1 sender2 account : address)
    (id amount : uint256) (u1 u2 : string) :
  mint sender1 account id amount u1 s = Ok s1 ->
  owner (inherited s1) = sender2 -> u2 <> EmptyString ->
  exists s2,
    updateTokenMetadata sender2 id u2 s1 = Ok s2
    /\ _metadataHistory s2 id = _metadataHistory s id ++ [u1; u2]
    /\ _tokenMetadata s2 id = u2
    /\ inherited s2 = inherited s1.
Proof.
  intros Hm Ho Hu.
  apply mint_Ok in Hm as (_ & Hu1 & b & _ & ->).
  destruct (proj2 (updateTokenMetadata_succeeds sender2 id u2
    {| inherited := b; _baseURI := _baseURI s;
       _tokenMetadata := upd (_tokenMetadata s) id u1;
       _metadataHistory := upd (_metadataHistory s) id (_metadataHistory s id ++ [u1]) |}))
    as [s2 H2].
  { cbn. rewrite upd_eq. auto. }
  exists s2. split; [exact H2|].
  apply updateTokenMetadata_Ok in H2 as (_ & _ & _ & ->). cbn.
  rewrite !upd_eq, <- app_assoc. auto.
Qed.

(** X21. [uri] answers the same for every token id: the base URI of the
    last [updateBaseURI] that went through, or the one the state started
    with; mints and metadata updates never change it. *)
Theorem uri_is_last_base (cs : list Call) (s : State) (tokenId : uint256) :
  uri tokenId (run cs s) = List.last (rebased cs s) (_baseURI s).
Proof.
  unfold uri. revert s. induction cs as [|c r IH]; intros s; cbn [run rebased]; [reflexivity|].
  rewrite IH, last_app_default. f_equal.
  unfold after, succeeds.
  destruct c as [sender account id' amount url | sender id' url | sender uri' | base'];
    cbn [exec].
  - destruct (mint sender account id' amount url s) as [s'|e] eqn:He; [|reflexivity].
    apply mint_Ok in He as (_ & _ & b & _ & ->). reflexivity.
  - destruct (updateTokenMetadata sender id' url s) as [s'|e] eqn:He; [|reflexivity].
    apply updateTokenMetadata_Ok in He as (_ & _ & _ & ->). reflexivity.
  - destruct (updateBaseURI sender uri' s) as [s'|e] eqn:He; [|reflexivity].
    apply updateBaseURI_Ok in He as (_ & ->). reflexivity.
  - reflexivity.
Qed.

End ContractFurther.

(** ** The further properties on examples *)

Lemma upload_succeeds_iff_witness :
  outcome (uploadToIPFS (sample_host configured_env) (sample_services "0xabc")
             (uploadToIPFS_module (sample_host configured_env))
             "/app/metadataNFTree" sample_files)
  = inr (sample_gateway +:+ "Qm123").
Proof.
  apply (proj2 (upload_succeeds_iff (sample_host configured_env) (sample_services "0xabc")
                  (uploadToIPFS_module (sample_host configured_env))
                  "/app/metadataNFTree" sample_files (sample_gateway +:+ "Qm123"))).
  split; [vm_compute; reflexivity|].
  exists "{}", "Qm123". repeat split; vm_compute; reflexivity.
Defined.

Lemma upload_network_calls_witness :
  pin_calls (events (uploadToIPFS (sample_host configured_env) (sample_services "0xabc")
                       (uploadToIPFS_module (sample_host configured_env))
                       "/app/metadataNFTree" sample_files))
  = [(Some "{}", "metadataNFTree", 0%N)].
Proof.
  exact (eq_trans
           (upload_network_calls (sample_host configured_env) (sample_services "0xabc")
              (uploadToIPFS_module (sample_host configured_env))
              "/app/metadataNFTree" sample_files)
           eq_refl).
Defined.

Lemma upload_failure_logged_witness :
  files (uploadToIPFS (sample_host configured_env) failing_pinning
           (uploadToIPFS_module (sample_host configured_env))
           "/app/metadataNFTree" sample_files)
  = sample_files.
Proof.
  apply (upload_failure_logged (sample_host configured_env) failing_pinning
           (uploadToIPFS_module (sample_host configured_env))
           "/app/metadataNFTree" sample_files (mkError "pin failed")).
  vm_compute. reflexivity.
Defined.

Lemma upload_main_keeps_existing_file_witness :
  writes (events (UploadScript.main (sample_host configured_env) failing_pinning
                    (uploadToIPFS_module (sample_host configured_env)) sample_files))
  = []
  /\ outcome (UploadScript.main (sample_host configured_env) failing_pinning
                (uploadToIPFS_module (sample_host configured_env)) sample_files)
     = inr None.
Proof.
  destruct (upload_main_keeps_existing_file (sample_host configured_env) failing_pinning
              (uploadToIPFS_module (sample_host configured_env)) sample_files "{}")
    as (_ & Hw & Ho); [vm_compute; reflexivity|].
  split; [exact Hw | rewrite Ho; vm_compute; reflexivity].
Defined.

Lemma upload_main_creates_missing_file_witness :
  pin_calls (events (UploadScript.main (sample_host configured_env)
                       (sample_services "0xabc")
                       (uploadToIPFS_module (sample_host configured_env)) ∅))
  = [(Some UploadScript.SAMPLE_TEXT, "metadataNFTree", 0%N)].
Proof.
  destruct (upload_main_creates_missing_file (sample_host configured_env)
              (sample_services "0xabc")
              (uploadToIPFS_module (sample_host configured_env)) ∅)
    as (_ & _ & Hp & _); [vm_compute; reflexivity | reflexivity |].
  apply Hp. vm_compute. reflexivity.
Defined.

Lemma workflow_touches_only_record_witness :
  files (runWorkflow (sample_host configured_env) (sample_services "0xabc") sample_files)
    !! "/app/metadataNFTree"
  = sample_files !! "/app/metadataNFTree".
Proof.
  apply (workflow_touches_only_record (sample_host configured_env)
           (sample_services "0xabc") sample_files "/app/metadataNFTree").
  vm_compute. discriminate.
Defined.

Lemma workflow_never_retries_witness :
  length (pin_calls (events (runWorkflow (sample_host configured_env)
                               (sample_services "0xabc") sample_files))) <= 1.
Proof.
  apply (workflow_never_retries (sample_host configured_env) (sample_services "0xabc")
           sample_files).
Defined.

Lemma mint_call_provenance_witness :
  exists u content cid,
    attestation (sample_services "0xabc") = inr u
    /\ write_fault (sample_services "0xabc") = None
    /\ saved (sample_host sample_env) sample_files u
         !! metadata_path (sample_host sample_env) = Some content
    /\ pinning (sample_services "0xabc") (Some content)
         (path_basename (sample_host sample_env) (metadata_path (sample_host sample_env))) 0
       = inr cid
    /\ falsy (recipient (sample_host sample_env)) = false
    /\ (Some "0xf703e22985579d53284648Ba4C56735d6B746c2d", 2%N, 1%N, "undefinedQm123")
       = (recipient (sample_host sample_env), 2%N, 1%N,
          plus (env (sample_host sample_env) !! "PINATA_GATEWAY_URL") cid).
Proof.
  apply (mint_call_provenance (sample_host sample_env) (sample_services "0xabc")
           sample_files).
  vm_compute. left. reflexivity.
Defined.

Lemma token_independent_of_uid_witness :
  mint_calls (events (runWorkflow (sample_host configured_env)
                        (with_attestation (sample_services "0xabc") (inr "0x01"))
                        sample_files))
  = mint_calls (events (runWorkflow (sample_host configured_env)
                          (with_attestation (sample_services "0xabc") (inr "0x02"))
                          sample_files)).
Proof.
  apply (token_independent_of_uid (sample_host configured_env) (sample_services "0xabc")
           sample_files "0x01" "0x02").
  vm_compute. discriminate.
Defined.

Lemma success_message_iff_completed_witness :
  In SUCCESS_LOG
    (events (runWorkflow (sample_host configured_env) (sample_services "0xabc")
               sample_files)).
Proof.
  apply (proj1 (success_message_iff_completed (sample_host configured_env)
                  (sample_services "0xabc") sample_files)).
  vm_compute. reflexivity.
Defined.

Lemma upload_error_reported_twice_witness :
  mint_calls (events (runWorkflow (sample_host configured_env) failing_pinning
                        sample_files)) = [].
Proof.
  apply (upload_error_reported_twice (sample_host configured_env) failing_pinning
           sample_files "0xabc" (mkError "pin failed"));
    vm_compute; reflexivity.
Defined.

Lemma plain_uid_written_verbatim_witness :
  QuoteJSONString "0xabc" = DQUOTE +:+ "0xabc" +:+ DQUOTE.
Proof.
  apply (plain_uid_written_verbatim "0xabc"). reflexivity.
Defined.

Lemma attestation_record_inj_witness :
  attestation_record "0xabc" = attestation_record "0xabc" /\ "0xabc" = "0xabc".
Proof.
  split; [reflexivity|].
  apply (attestation_record_inj "0xabc" "0xabc"). reflexivity.
Defined.

Lemma not_owner_reverts_witness :
  after stranger_mint sample_contract = sample_contract.
Proof.
  apply (@not_owner_reverts OZ stranger_mint 7%N sample_contract);
    [reflexivity | vm_compute; discriminate].
Defined.

Lemma empty_url_reverts_witness :
  @mint OZ 1%N 5%N 2%N 1%N EmptyString sample_contract
  = Revert (RequireFailed "IPFS URL cannot be empty").
Proof.
  apply (@empty_url_reverts OZ 1%N 5%N 2%N 1%N sample_contract). reflexivity.
Defined.

Lemma update_succeeds_iff_minted_witness :
  exists s',
    @updateTokenMetadata OZ 1%N 2%N "ipfs://b"
      (run [sample_mint "ipfs://a"] (@constructor OZ sample_base "ipfs://base/"))
    = Ok s'.
Proof.
  apply (proj2 (@update_succeeds_iff_minted OZ sample_base "ipfs://base/"
                  [sample_mint "ipfs://a"] 1%N 2%N "ipfs://b")).
  split; [reflexivity | split; [discriminate | reflexivity]].
Defined.

Lemma views_agree_witness :
  @getTokenMetadata OZ 3%N (run [sample_mint "ipfs://a"] sample_contract)
    = Revert (RequireFailed "Token ID does not exist")
  <-> @getMetadataHistory OZ 3%N (run [sample_mint "ipfs://a"] sample_contract)
      = Revert (RequireFailed "No history for this token ID").
Proof.
  apply (@views_agree OZ (run [sample_mint "ipfs://a"] sample_contract) 3%N).
  apply (@reach_call OZ (sample_mint "ipfs://a")), reach_constructor.
Defined.

Lemma read_after_write_witness :
  @getTokenMetadata OZ 2%N (after (sample_mint "ipfs://a") sample_contract)
  = Ok "ipfs://a".
Proof.
  apply (@read_after_write OZ (sample_mint "ipfs://a") sample_contract
           (after (sample_mint "ipfs://a") sample_contract) 2%N "ipfs://a");
    [reflexivity|].
  left. exists 1%N, 5%N, 1%N. reflexivity.
Defined.

Lemma history_is_log_witness :
  _metadataHistory
    (run [sample_mint "ipfs://a"; stranger_mint; sample_update "ipfs://b"] sample_contract)
    2%N
  = ["ipfs://a"; "ipfs://b"].
Proof.
  exact (eq_trans
           (proj1 (@history_is_log OZ
                     [sample_mint "ipfs://a"; stranger_mint; sample_update "ipfs://b"]
                     sample_contract 2%N))
           eq_refl).
Defined.

Lemma mint_then_update_witness :
  exists s2,
    @updateTokenMetadata OZ 1%N 2%N "ipfs://b" (after (sample_mint "ipfs://a") sample_contract)
    = Ok s2
    /\ _metadataHistory s2 2%N = _metadataHistory sample_contract 2%N
                                 ++ ["ipfs://a"; "ipfs://b"]
    /\ _tokenMetadata s2 2%N = "ipfs://b"
    /\ inherited s2 = inherited (after (sample_mint "ipfs://a") sample_contract).
Proof.
  apply (@mint_then_update OZ sample_contract
           (after (sample_mint "ipfs://a") sample_contract)
           1%N 1%N 5%N 2%N 1%N "ipfs://a" "ipfs://b");
    [reflexivity | reflexivity | discriminate].
Defined.

Lemma uri_is_last_base_witness :
  uri 9%N (run [sample_mint "ipfs://a"; sample_rebase; sample_update "ipfs://b"]
             sample_contract)
  = "ipfs://other/".
Proof.
  exact (eq_trans
           (@uri_is_last_base OZ
              [sample_mint "ipfs://a"; sample_rebase; sample_update "ipfs://b"]
              sample_contract 9%N)
           eq_refl).
Defined.

(** ** When a mint goes through *)

Section MintSuccess.
Context {I : Inherited}.

(** X22. [mint] goes through exactly when the sender is the owner, the
    URI is not empty and the inherited [_mint] accepts the receiver, class
    and amount; the state it leaves is then the one [_mint] leaves, with
    the URI made current for the class and pushed on its history. *)
Theorem mint_succeeds_iff (sender account : address) (id amount : uint256)
    (ipfsURL : string) (s s' : State) :
  mint sender account id amount ipfsURL s = Ok s'
  <-> owner (inherited s) = sender /\ ipfsURL <> EmptyString
      /\ exists base',
           _mint sender account id amount EmptyString (inherited s) = Ok base'
           /\ s' = {| inherited := base';
                      _baseURI := _baseURI s;
                      _tokenMetadata := upd (_tokenMetadata s) id ipfsURL;
                      _metadataHistory :=
                        upd (_metadataHistory s) id (_metadataHistory s id ++ [ipfsURL]) |}.
Proof.
  split; [apply mint_Ok|].
  intros (Ho & Hu & base' & Hm & ->).
  apply N.eqb_eq in Ho. apply nonempty_true in Hu.
  unfold mint, onlyOwner. rewrite Ho, Hu. cbn [negb]. rewrite Hm. reflexivity.
Qed.

End MintSuccess.

Lemma mint_succeeds_iff_witness :
  @mint OZ 1%N 6%N 3%N 4%N "ipfs://c" (after (sample_mint "ipfs://a") sample_contract)
  = Ok minted_contract.
Proof.
  apply (proj2 (@mint_succeeds_iff OZ 1%N 6%N 3%N 4%N "ipfs://c"
                  (after (sample_mint "ipfs://a") sample_contract) minted_contract)).
  split; [reflexivity|]. split; [discriminate|].
  exists (inherited minted_contract). split; reflexivity.
Defined.
